(** * API de Receitas: a shallow embedding of [main.py]

    The Flask application keeps two pieces of process-wide state: the recipe
    catalog [RECEITAS], loaded once and never modified, and the single-slot
    context mailbox [CONTEXTO_ATUAL].  A view function is embedded as a
    function from its inputs (and, for the mailbox, the slot) to the response
    it returns; the helpers it calls keep their names.

    Conventions.
    - A Python [str] is a [string] holding its UTF-8 bytes: equality, the
      substring test and the lexicographic order on code points all coincide
      with the same operations on the bytes.  [str.lower] depends on the
      Unicode tables and is kept as a parameter [lower].
    - A Python [float] is a binary64 value, the primitive [float]; a Python
      [int] is a [Z].
    - A catalog record is a dictionary read through fixed keys; it is a record
      whose optional fields are the keys read with [dict.get].
    - A view returns [jsonify(body)] with a status code (200 when no code is
      given); a Python exception escaping a function is [Raise]. *)

From Stdlib Require Import ZArith QArith Lia.
From Stdlib Require Import PrimFloat SpecFloat FloatOps.
From stdpp Require Import gmap strings list sorting.

Local Open Scope Z_scope.
Set Warnings "-register-all".
Set Warnings "-inexact-float".

(** ** Exceptions *)

Inductive excecao := TypeError | KeyError | OverflowError.

Inductive res (A : Type) : Type :=
| Ret (a : A)
| Raise (e : excecao).
Arguments Ret {A} a.
Arguments Raise {A} e.

#[global] Instance res_ret : MRet res := fun A a => Ret a.
#[global] Instance res_bind : MBind res := fun A B f x =>
  match x with
  | Ret a => f a
  | Raise e => Raise e
  end.

(** ** Numbers *)

Inductive numero :=
| NInt (z : Z)
| NFloat (f : float).

(** [float(z)] for an [int]: the nearest binary64 value, ties to even;
    [OverflowError] when that is not finite. *)
Definition float_of_Z (z : Z) : spec_float := binary_normalize prec emax z 0 false.

Definition py_float (n : numero) : res float :=
  match n with
  | NFloat f => Ret f
  | NInt z =>
      match float_of_Z z with
      | S754_infinity _ => Raise OverflowError
      | sf => Ret (SF2Prim sf)
      end
  end.

(** The exact value of a number, on the extended rational line; a NaN has
    none.  Python compares [int] and [float] values, mixed or not, by their
    exact values, and every comparison with a NaN is false. *)
Inductive exato :=
| MenosInf
| Finito (q : Q)
| MaisInf.

Definition valor_float (f : float) : option exato :=
  match Prim2SF f with
  | S754_nan => None
  | S754_zero _ => Some (Finito 0)
  | S754_infinity s => Some (if s then MenosInf else MaisInf)
  | S754_finite s m e => Some (Finito (inject_Z (cond_Zopp s (Zpos m)) * Qpower 2 e))
  end.

Definition valor_exato (n : numero) : option exato :=
  match n with
  | NInt z => Some (Finito (inject_Z z))
  | NFloat f => valor_float f
  end.

Definition exato_compare (x y : exato) : comparison :=
  match x, y with
  | MenosInf, MenosInf => Eq
  | MenosInf, _ => Lt
  | _, MenosInf => Gt
  | MaisInf, MaisInf => Eq
  | MaisInf, _ => Gt
  | _, MaisInf => Lt
  | Finito p, Finito q => Qcompare p q
  end.

Definition py_compare (a b : numero) : option comparison :=
  match valor_exato a, valor_exato b with
  | Some x, Some y => Some (exato_compare x y)
  | _, _ => None
  end.

(** [a < b], [a > b] and [a == b] on numbers. *)
Definition py_lt (a b : numero) : bool :=
  match py_compare a b with Some Lt => true | _ => false end.
Definition py_gt (a b : numero) : bool :=
  match py_compare a b with Some Gt => true | _ => false end.
Definition py_eq (a b : numero) : bool :=
  match py_compare a b with Some Eq => true | _ => false end.

(** [round(x, 2)] on a [float]: the decimal with two fractional digits
    nearest to the exact value of [x] (ties to the even digit), converted back
    to the nearest binary64 value; zeros, infinities and NaN are returned
    unchanged and the sign is kept. *)
Definition rne_div (a b : Z) : Z :=
  let q := a / b in
  match 2 * (a mod b) ?= b with
  | Lt => q
  | Gt => q + 1
  | Eq => if Z.even q then q else q + 1
  end.

Definition centesimos (m : positive) (e : Z) : Z :=
  match e with
  | Zneg p => rne_div (100 * Zpos m) (2 ^ Zpos p)
  | _ => 100 * Zpos m * 2 ^ e
  end.

Definition sf_of_Z (s : bool) (n : Z) : spec_float :=
  match n with
  | Zpos p => S754_finite s p 0
  | _ => S754_zero s
  end.

Definition round2 (x : float) : float :=
  match Prim2SF x with
  | S754_finite s m e =>
      SF2Prim (SFdiv prec emax (sf_of_Z s (centesimos m e)) (S754_finite false 100 0))
  | _ => x
  end.

(** [round(n, 2)] on a number: an [int] rounds to itself. *)
Definition py_round2 (n : numero) : numero :=
  match n with
  | NInt z => NInt z
  | NFloat f => NFloat (round2 f)
  end.

(** ** Strings *)

(** [s in t] on [str]: [s] occurs in [t] as a contiguous substring. *)
Fixpoint contem (t s : string) : bool :=
  String.prefix s t ||
  match t with
  | EmptyString => false
  | String _ t' => contem t' s
  end.

(** [str.lower] restricted to ASCII letters; it agrees with Python on ASCII
    text and is the instance used in the examples. *)
Definition lower_ascii_char (c : Ascii.ascii) : Ascii.ascii :=
  let n := Ascii.nat_of_ascii c in
  if (65 <=? n)%nat && (n <=? 90)%nat then Ascii.ascii_of_nat (n + 32) else c.

Fixpoint lower_ascii (s : string) : string :=
  match s with
  | EmptyString => EmptyString
  | String c s' => String (lower_ascii_char c) (lower_ascii s')
  end.

Definition aspas : string := String (Ascii.ascii_of_nat 34) EmptyString.

(** ** JSON documents, as [request.get_json()] returns them *)

Inductive json :=
| JNull                                (* None *)
| JBool (b : bool)
| JNum (n : numero)
| JStr (s : string)
| JList (l : list json)
| JDict (d : list (string * json)).    (* items of a dict, keys distinct *)

Definition float_is_zero (f : float) : bool :=
  match Prim2SF f with
  | S754_zero _ => true
  | _ => false
  end.

(** Truth value of a document: [bool(v)]. *)
Definition truthy (v : json) : bool :=
  match v with
  | JNull => false
  | JBool b => b
  | JNum (NInt z) => negb (z =? 0)
  | JNum (NFloat f) => negb (float_is_zero f)
  | JStr s => match s with EmptyString => false | _ => true end
  | JList l => match l with [] => false | _ => true end
  | JDict d => match d with [] => false | _ => true end
  end.

Fixpoint dict_get (d : list (string * json)) (k : string) : option json :=
  match d with
  | [] => None
  | (k', v) :: d' => if String.eqb k' k then Some v else dict_get d' k
  end.

(** [v == k] for a document [v] and a [str] [k]. *)
Definition json_eq_str (v : json) (k : string) : bool :=
  match v with
  | JStr s => String.eqb s k
  | _ => false
  end.

(** [k in v] for a [str] [k]: a key of a dict, an element of a list, a
    substring of a str; other documents are not containers. *)
Definition py_in (k : string) (v : json) : res bool :=
  match v with
  | JDict d => Ret (bool_decide (is_Some (dict_get d k)))
  | JList l => Ret (existsb (fun x => json_eq_str x k) l)
  | JStr s => Ret (contem s k)
  | _ => Raise TypeError
  end.

(** [v[k]] for a [str] [k]: only a dict can be indexed by a string. *)
Definition py_getitem (v : json) (k : string) : res json :=
  match v with
  | JDict d =>
      match dict_get d k with
      | Some x => Ret x
      | None => Raise KeyError
      end
  | _ => Raise TypeError
  end.

(** The one-character strings of a [str].  They are only ever compared with
    integers below, so the bytes stand for the characters. *)
Fixpoint caracteres (s : string) : list json :=
  match s with
  | EmptyString => []
  | String c s' => JStr (String c EmptyString) :: caracteres s'
  end.

(** The elements a [for] loop draws from a document. *)
Definition py_iter (v : json) : res (list json) :=
  match v with
  | JList l => Ret l
  | JStr s => Ret (caracteres s)
  | JDict d => Ret (map (fun kv => JStr (fst kv)) d)
  | _ => Raise TypeError
  end.

(** [z == v] for an [int] [z] and a document [v]: numbers compare by value
    and [True], [False] are the integers 1 and 0. *)
Definition int_eq_json (z : Z) (v : json) : bool :=
  match v with
  | JNum n => py_eq (NInt z) n
  | JBool b => z =? (if b then 1 else 0)
  | _ => false
  end.

(** ** Responses *)

Inductive corpo (A : Type) : Type :=
| Erro (erro : string)        (* jsonify({'erro': erro}) *)
| Json (dados : A).           (* jsonify(dados) *)
Arguments Erro {A} erro.
Arguments Json {A} dados.

Definition resposta (A : Type) : Type := (corpo A * Z)%type.

Definition status {A} (r : resposta A) : Z := snd r.

(** ** The context mailbox *)

(** [CONTEXTO_ATUAL] holds a document; [None] is [JNull]. *)
Definition enviar_contexto (data : json) (CONTEXTO_ATUAL : json)
  : resposta json * json :=
  if negb (truthy data) then
    ((Erro "Dados inválidos", 400), CONTEXTO_ATUAL)
  else
    ((Json (JDict [("sucesso", JBool true);
                   ("mensagem", JStr "Contexto salvo no servidor")]), 200),
     data).

Definition pegar_contexto (CONTEXTO_ATUAL : json) : resposta json * json :=
  match CONTEXTO_ATUAL with
  | JNull => ((Erro "Nenhum contexto disponível", 404), CONTEXTO_ATUAL)
  | ctx => ((Json (JDict [("sucesso", JBool true); ("dados", ctx)]), 200), JNull)
  end.

(** A client request to the mailbox, and the slot after a sequence of them. *)
Inductive pedido :=
| Enviar (data : json)
| Pegar.

Definition atender (p : pedido) (CONTEXTO_ATUAL : json) : resposta json * json :=
  match p with
  | Enviar data => enviar_contexto data CONTEXTO_ATUAL
  | Pegar => pegar_contexto CONTEXTO_ATUAL
  end.

Definition executar (ps : list pedido) (CONTEXTO_ATUAL : json) : json :=
  fold_left (fun ctx p => snd (atender p ctx)) ps CONTEXTO_ATUAL.

(** The mailbox as the design describes it: [Empty] or [Holding value].  A
    send that the server accepts puts its value in, a take empties it. *)
Inductive caixa :=
| Vazia
| Contendo (valor : json).

Definition atender_caixa (p : pedido) (CONTEXTO_ATUAL : json) (c : caixa) : caixa :=
  match p with
  | Enviar data =>
      if status (fst (enviar_contexto data CONTEXTO_ATUAL)) =? 200
      then Contendo data else c
  | Pegar => Vazia
  end.

Fixpoint executar_caixa (ps : list pedido) (CONTEXTO_ATUAL : json) (c : caixa) : caixa :=
  match ps with
  | [] => c
  | p :: ps' =>
      executar_caixa ps' (snd (atender p CONTEXTO_ATUAL)) (atender_caixa p CONTEXTO_ATUAL c)
  end.

(** The slot and the abstract mailbox stay in step. *)
Definition em_passo (ctx : json) (c : caixa) : Prop :=
  match c with
  | Vazia => ctx = JNull
  | Contendo v => ctx = v /\ truthy v = true
  end.

(** ** The catalog *)

Record ingrediente := {
  NomeIngrediente : string;
  Quantidade : numero
}.

Record macronutriente := {
  Tipo : string;
  Valor : numero
}.

(** A record of [receitas_completo.json].  ['IdReceita'] and ['NomeReceita']
    are read with [r[...]]; the other keys are read with [r.get(...)] and may
    be absent. *)
Record receita := {
  IdReceita : Z;
  NomeReceita : string;
  Tag : option string;
  CaloriasTotais : option numero;
  Ingredientes : option (list ingrediente);
  Macronutrientes : option (list macronutriente);
  Restricoes : option (list string)
}.

(** [d.get(chave, padrao)] *)
Definition get {A} (campo : option A) (padrao : A) : A := default padrao campo.

(** ** Aggregation *)

(** [acc[chave] += x] on a [defaultdict(float)]. *)
Definition somar_em (acc : gmap string float) (chave : string) (x : float)
  : gmap string float :=
  <[chave := (default 0%float (acc !! chave) + x)%float]> acc.

(** [sorted(acc.items())]: the keys are distinct, so the pairs are ordered by
    key alone. *)
Definition itens_ordenados (acc : gmap string float) : list (string * float) :=
  merge_sort (fun a b => String.le (fst a) (fst b)) (map_to_list acc).

(** An entry [{'NomeIngrediente': nome, 'QuantidadeTotal': total}]. *)
Record ingrediente_somado := {
  nome_somado : string;
  QuantidadeTotal : float
}.

Fixpoint somar_lista_ingredientes (ings : list ingrediente) (acc : gmap string float)
  : res (gmap string float) :=
  match ings with
  | [] => mret acc
  | ing :: ings' =>
      let nome := NomeIngrediente ing in
      qtd ← py_float (Quantidade ing);
      somar_lista_ingredientes ings' (somar_em acc nome qtd)
  end.

Fixpoint acumular_ingredientes (lista_receitas : list receita) (acc : gmap string float)
  : res (gmap string float) :=
  match lista_receitas with
  | [] => mret acc
  | receita :: resto =>
      acc' ← somar_lista_ingredientes (get (Ingredientes receita) []) acc;
      acumular_ingredientes resto acc'
  end.

Definition somar_ingredientes (lista_receitas : list receita)
  : res (list ingrediente_somado) :=
  ingredientes_somados ← acumular_ingredientes lista_receitas ∅;
  mret (map (fun item => {| nome_somado := fst item;
                            QuantidadeTotal := round2 (snd item) |})
            (itens_ordenados ingredientes_somados)).

(** An entry [{'Tipo': tipo, 'ValorTotal': valor}] and the result
    [{'CaloriasTotais': ..., 'Macronutrientes': [...]}] of [somar_macros]. *)
Record macro_somado := {
  tipo_somado : string;
  ValorTotal : float
}.

Record macros_totais := {
  calorias_somadas : numero;
  macros_somados : list macro_somado
}.

Fixpoint somar_lista_macros (macros : list macronutriente) (acc : gmap string float)
  : res (gmap string float) :=
  match macros with
  | [] => mret acc
  | macro :: macros' =>
      let tipo := Tipo macro in
      valor ← py_float (Valor macro);
      somar_lista_macros macros' (somar_em acc tipo valor)
  end.

(** [calorias_total] starts as the [int] 0 and becomes a [float] with the
    first record. *)
Fixpoint acumular_macros (lista_receitas : list receita)
    (acc : gmap string float) (calorias_total : numero)
  : res (gmap string float * numero) :=
  match lista_receitas with
  | [] => mret (acc, calorias_total)
  | receita :: resto =>
      cal ← py_float (get (CaloriasTotais receita) (NInt 0));
      total ← py_float calorias_total;
      acc' ← somar_lista_macros (get (Macronutrientes receita) []) acc;
      acumular_macros resto acc' (NFloat (total + cal)%float)
  end.

Definition somar_macros (lista_receitas : list receita) : res macros_totais :=
  '(macros, calorias_total) ← acumular_macros lista_receitas ∅ (NInt 0);
  mret {| calorias_somadas := py_round2 calorias_total;
          macros_somados :=
            map (fun item => {| tipo_somado := fst item;
                                ValorTotal := round2 (snd item) |})
                (itens_ordenados macros) |}.

(** ** [max] and [min] with a key

    The builtin scans the iterable once, keeps the first item and replaces it
    only by an item whose key compares strictly greater ([max]) or strictly
    smaller ([min]); [default] is returned for an empty iterable. *)
Definition py_extremo {A} (melhor : A -> A -> bool) (l : list A) : option A :=
  match l with
  | [] => None
  | x :: l' =>
      Some (fold_left (fun atual item => if melhor item atual then item else atual) l' x)
  end.

Definition py_max {A} (key : A -> numero) (l : list A) : option A :=
  py_extremo (fun item atual => py_gt (key item) (key atual)) l.

Definition py_min {A} (key : A -> numero) (l : list A) : option A :=
  py_extremo (fun item atual => py_lt (key item) (key atual)) l.

(** ** Response bodies, one record per view, fields named after the keys *)

Module PorTag.
Record t := { tag : string; total : nat; receitas : list receita }.
End PorTag.

Module Busca.
Record t := { termo_busca : string; total : nat; receitas : list receita }.
End Busca.

Module Tags.
Record t := { tags : list string; contagem_por_tag : gmap string nat }.
End Tags.

Module IngredientesSomados.
Record t := {
  receitas_ids : json;
  receitas_nomes : list string;
  total_receitas : nat;
  ingredientes_somados : list ingrediente_somado
}.
End IngredientesSomados.

Module MacrosSomados.
Record t := {
  receitas_ids : json;
  receitas_nomes : list string;
  total_receitas : nat;
  resultados : macros_totais
}.
End MacrosSomados.

Module Stats.
Record t := {
  total_receitas : nat;
  total_ingredientes_registros : nat;
  total_tags : nat;
  tags_disponiveis : list string;
  receita_mais_calorica : option receita;
  receita_menos_calorica : option receita
}.
End Stats.

Definition erro_ids : string :=
  "Body deve conter " +:+ aspas +:+ "ids" +:+ aspas +:+ ": [...]".
Definition erro_nome : string :=
  "Parâmetro " +:+ aspas +:+ "nome" +:+ aspas +:+ " é obrigatório".
Definition erro_nenhuma : string :=
  "Nenhuma receita encontrada com os IDs fornecidos".

(** ** The views over the catalog *)

Section Catalogo.

Variable RECEITAS : list receita.
Variable lower : string -> string.

Definition buscar_receita_por_id (receita_id : json) : option receita :=
  List.find (fun receita => int_eq_json (IdReceita receita) receita_id) RECEITAS.

Definition obter_tags_unicas : list string :=
  let tags :=
    fold_left (fun (tags : gset string) receita => tags ∪ {[ get (Tag receita) "Outros" ]})
              RECEITAS ∅ in
  merge_sort String.le (elements tags).

Definition buscar_receitas_por_nome (termo : string) : list receita :=
  let termo_lower := lower termo in
  List.filter (fun receita => contem (lower (NomeReceita receita)) termo_lower) RECEITAS.

Definition filtrar_por_tag (tag : string) : resposta PorTag.t :=
  let receitas_filtradas :=
    List.filter (fun r => String.eqb (lower (get (Tag r) "")) (lower tag)) RECEITAS in
  (Json {| PorTag.tag := tag;
           PorTag.total := length receitas_filtradas;
           PorTag.receitas := receitas_filtradas |}, 200).

(** [request.args.get('nome', '')]: the parameter may be missing. *)
Definition buscar_por_nome (nome : option string) : resposta Busca.t :=
  let termo := get nome "" in
  match termo with
  | EmptyString => (Erro erro_nome, 400)
  | _ =>
      let receitas_encontradas := buscar_receitas_por_nome termo in
      (Json {| Busca.termo_busca := termo;
               Busca.total := length receitas_encontradas;
               Busca.receitas := receitas_encontradas |}, 200)
  end.

(** [sum(1 for r in RECEITAS if r.get('Tag') == tag)] *)
Definition contar_tag (tag : string) : nat :=
  length (List.filter (fun r => bool_decide (Tag r = Some tag)) RECEITAS).

Definition listar_tags : resposta Tags.t :=
  let tags := obter_tags_unicas in
  let contagem : gmap string nat :=
    list_to_map (map (fun tag => (tag, contar_tag tag)) tags) in
  (Json {| Tags.tags := tags; Tags.contagem_por_tag := contagem |}, 200).

(** [[buscar_receita_por_id(rid) for rid in ids]] followed by
    [[r for r in receitas_encontradas if r]]: a record is a non-empty dict, so
    only [None] is dropped. *)
Definition resolver (ids : list json) : list receita :=
  omap buscar_receita_por_id ids.

Definition ingredientes_multiplas_receitas (data : json)
  : res (resposta IngredientesSomados.t) :=
  if negb (truthy data) then mret (Erro erro_ids, 400) else
  tem_ids ← py_in "ids" data;
  if negb tem_ids then mret (Erro erro_ids, 400) else
  ids ← py_getitem data "ids";
  elementos ← py_iter ids;
  let receitas_encontradas := resolver elementos in
  match receitas_encontradas with
  | [] => mret (Erro erro_nenhuma, 404)
  | _ =>
      ingredientes_totais ← somar_ingredientes receitas_encontradas;
      mret (Json {| IngredientesSomados.receitas_ids := ids;
                    IngredientesSomados.receitas_nomes :=
                      map NomeReceita receitas_encontradas;
                    IngredientesSomados.total_receitas := length receitas_encontradas;
                    IngredientesSomados.ingredientes_somados := ingredientes_totais |},
            200)
  end.

Definition macros_multiplas_receitas (data : json)
  : res (resposta MacrosSomados.t) :=
  if negb (truthy data) then mret (Erro erro_ids, 400) else
  tem_ids ← py_in "ids" data;
  if negb tem_ids then mret (Erro erro_ids, 400) else
  ids ← py_getitem data "ids";
  elementos ← py_iter ids;
  let receitas_encontradas := resolver elementos in
  match receitas_encontradas with
  | [] => mret (Erro erro_nenhuma, 404)
  | _ =>
      macros ← somar_macros receitas_encontradas;
      mret (Json {| MacrosSomados.receitas_ids := ids;
                    MacrosSomados.receitas_nomes := map NomeReceita receitas_encontradas;
                    MacrosSomados.total_receitas := length receitas_encontradas;
                    MacrosSomados.resultados := macros |},
            200)
  end.

Definition calorias (r : receita) : numero := get (CaloriasTotais r) (NInt 0).

Definition estatisticas : resposta Stats.t :=
  let total_ingredientes :=
    sum_list (map (fun r => length (get (Ingredientes r) [])) RECEITAS) in
  let tags := obter_tags_unicas in
  (Json {| Stats.total_receitas := length RECEITAS;
           Stats.total_ingredientes_registros := total_ingredientes;
           Stats.total_tags := length tags;
           Stats.tags_disponiveis := tags;
           Stats.receita_mais_calorica := py_max calorias RECEITAS;
           Stats.receita_menos_calorica := py_min calorias RECEITAS |}, 200).

End Catalogo.

(** ** The query operations as the design words them

    The design gives every record a tag, ["Outros"] when the key is absent,
    and states [byTag] and the counts of [distinctTags] over that tag. *)

Definition tag_efetiva (r : receita) : string := get (Tag r) "Outros".

Definition byTag (lower : string -> string) (RECEITAS : list receita) (tag : string)
  : list receita :=
  List.filter (fun r => String.eqb (lower (tag_efetiva r)) (lower tag)) RECEITAS.

Definition contagem_esperada (RECEITAS : list receita) (tag : string) : nat :=
  length (List.filter (fun r => String.eqb (tag_efetiva r) tag) RECEITAS).

Definition soma_contagens (contagem : gmap string nat) : nat :=
  sum_list (map snd (map_to_list contagem)).

(** ** First extremum of a list

    [primeiro_extremo melhor l r]: [r] occurs in [l] at a position where it is
    strictly better than every earlier element and no later element is
    strictly better than it. *)
Definition primeiro_extremo {A} (melhor : A -> A -> bool) (l : list A) (r : A) : Prop :=
  exists antes depois,
    l = antes ++ r :: depois
    /\ Forall (fun x => melhor r x = true) antes
    /\ Forall (fun x => melhor x r = false) depois.

(** A number that is not a NaN. *)
Definition comparavel (n : numero) : bool :=
  match valor_exato n with
  | Some _ => true
  | None => false
  end.

(** ** Reading the aggregation

    The ingredient occurrences of a list of records, in order, and the
    quantities, converted to [float], of the occurrences of one name. *)
Definition float_de (n : numero) : float :=
  match n with
  | NInt z => SF2Prim (float_of_Z z)
  | NFloat f => f
  end.

(** [float(n)] does not raise. *)
Definition convertivel (n : numero) : bool :=
  match py_float n with
  | Ret _ => true
  | Raise _ => false
  end.

Definition ocorrencias (lista_receitas : list receita) : list ingrediente :=
  flat_map (fun r => get (Ingredientes r) []) lista_receitas.

Definition quantidades_de (nome : string) (ings : list ingrediente) : list float :=
  map (fun ing => float_de (Quantidade ing))
      (List.filter (fun ing => String.eqb (NomeIngrediente ing) nome) ings).






(** One step of the accumulation with the quantity already converted, and
    the total a name has reached after a list of occurrences, starting from
    the entry [inicial] of the accumulator. *)
Definition passo_ingrediente (acc : gmap string float) (ing : ingrediente)
  : gmap string float :=
  somar_em acc (NomeIngrediente ing) (float_de (Quantidade ing)).

Definition total_de (nome : string) (ings : list ingrediente) (inicial : option float)
  : option float :=
  fold_left (fun o q => Some (default 0%float o + q)%float)
            (quantidades_de nome ings) inicial.

(** The entries built from an accumulator: [{'NomeIngrediente': nome,
    'QuantidadeTotal': round(qtd, 2)}] for the sorted items. *)
Definition entradas_arredondadas (acc : gmap string float) : list ingrediente_somado :=
  map (fun item => {| nome_somado := fst item; QuantidadeTotal := round2 (snd item) |})
      (itens_ordenados acc).

(** ** Sample data *)

Definition contexto_exemplo : json :=
  JDict [("receita", JNum (NInt 1)); ("porcoes", JNum (NInt 4))].

Definition receita_pudim : receita := {|
  IdReceita := 1;
  NomeReceita := "Pudim de Leite";
  Tag := Some "Doce";
  CaloriasTotais := Some (NInt 300);
  Ingredientes := Some [ {| NomeIngrediente := "Leite"; Quantidade := NInt 100 |} ];
  Macronutrientes := Some [ {| Tipo := "Proteina"; Valor := NFloat 7.5 |} ];
  Restricoes := Some ["Lactose"]
|}.

Definition receita_bolo : receita := {|
  IdReceita := 2;
  NomeReceita := "Bolo";
  Tag := Some "Doce";
  CaloriasTotais := Some (NFloat 250.5);
  Ingredientes := Some [ {| NomeIngrediente := "Leite"; Quantidade := NInt 50 |} ];
  Macronutrientes := None;
  Restricoes := None
|}.

(** A record without the key ['Tag']. *)
Definition receita_sem_tag : receita := {|
  IdReceita := 3;
  NomeReceita := "Sopa";
  Tag := None;
  CaloriasTotais := None;
  Ingredientes := None;
  Macronutrientes := None;
  Restricoes := None
|}.

Definition catalogo_exemplo : list receita :=
  [receita_pudim; receita_bolo; receita_sem_tag].

(** Records with one ingredient, for the aggregation examples. *)
Definition receita_de (id : Z) (nome : string) (ings : list ingrediente) : receita := {|
  IdReceita := id;
  NomeReceita := nome;
  Tag := Some "Doce";
  CaloriasTotais := None;
  Ingredientes := Some ings;
  Macronutrientes := None;
  Restricoes := None
|}.

Definition leite (qtd : numero) : ingrediente :=
  {| NomeIngrediente := "Leite"; Quantidade := qtd |}.




(** ** The remaining views *)

Definition erro_nao_encontrada : string := "Receita não encontrada".

Module DetalheIngredientes.
Record t := {
  IdReceita : Z;
  NomeReceita : string;
  Ingredientes : list ingrediente
}.
End DetalheIngredientes.

Module DetalheMacros.
Record t := {
  IdReceita : Z;
  NomeReceita : string;
  CaloriasTotais : option numero;      (* null when the key is absent *)
  Macronutrientes : list macronutriente
}.
End DetalheMacros.

Module DetalheRestricoes.
Record t := {
  IdReceita : Z;
  NomeReceita : string;
  Restricoes : list string
}.
End DetalheRestricoes.

Section Detalhes.

Variable RECEITAS : list receita.

(** The routes with [<int:receita_id>] pass an [int].  A record found is a
    non-empty dict, so [if receita] and [if not receita] test for [None]. *)
Definition obter_receita (receita_id : Z) : resposta receita :=
  match buscar_receita_por_id RECEITAS (JNum (NInt receita_id)) with
  | Some receita => (Json receita, 200)
  | None => (Erro erro_nao_encontrada, 404)
  end.

Definition obter_ingredientes (receita_id : Z) : resposta DetalheIngredientes.t :=
  match buscar_receita_por_id RECEITAS (JNum (NInt receita_id)) with
  | None => (Erro erro_nao_encontrada, 404)
  | Some receita =>
      (Json {| DetalheIngredientes.IdReceita := receita_id;
               DetalheIngredientes.NomeReceita := NomeReceita receita;
               DetalheIngredientes.Ingredientes := get (Ingredientes receita) [] |}, 200)
  end.

Definition obter_macros (receita_id : Z) : resposta DetalheMacros.t :=
  match buscar_receita_por_id RECEITAS (JNum (NInt receita_id)) with
  | None => (Erro erro_nao_encontrada, 404)
  | Some receita =>
      (Json {| DetalheMacros.IdReceita := receita_id;
               DetalheMacros.NomeReceita := NomeReceita receita;
               DetalheMacros.CaloriasTotais := CaloriasTotais receita;
               DetalheMacros.Macronutrientes := get (Macronutrientes receita) [] |}, 200)
  end.

Definition obter_restricoes (receita_id : Z) : resposta DetalheRestricoes.t :=
  match buscar_receita_por_id RECEITAS (JNum (NInt receita_id)) with
  | None => (Erro erro_nao_encontrada, 404)
  | Some receita =>
      (Json {| DetalheRestricoes.IdReceita := receita_id;
               DetalheRestricoes.NomeReceita := NomeReceita receita;
               DetalheRestricoes.Restricoes := get (Restricoes receita) [] |}, 200)
  end.

End Detalhes.

(** ** The history of a mailbox

    The requests of a run paired with the answers they got, and the sends
    and takes among them that were answered with 200. *)
Fixpoint historico (ps : list pedido) (CONTEXTO_ATUAL : json)
  : list (pedido * resposta json) :=
  match ps with
  | [] => []
  | p :: ps' =>
      (p, fst (atender p CONTEXTO_ATUAL))
        :: historico ps' (snd (atender p CONTEXTO_ATUAL))
  end.

Definition aceito (h : pedido * resposta json) : bool :=
  match fst h with
  | Enviar _ => status (snd h) =? 200
  | Pegar => false
  end.

Definition entregue (h : pedido * resposta json) : bool :=
  match fst h with
  | Enviar _ => false
  | Pegar => status (snd h) =? 200
  end.

(** A send that the server rejects. *)
Definition rejeitado (p : pedido) : Prop :=
  match p with
  | Enviar data => truthy data = false
  | Pegar => False
  end.

(** ** Reading the aggregation of macronutrients

    A macronutrient read as an occurrence [(Tipo, Valor)], the occurrences of
    a list of records, and the entries built from an accumulator. *)
Definition como_ingrediente (m : macronutriente) : ingrediente :=
  {| NomeIngrediente := Tipo m; Quantidade := Valor m |}.

Definition ocorrencias_macros (lista_receitas : list receita) : list ingrediente :=
  flat_map (fun r => map como_ingrediente (get (Macronutrientes r) [])) lista_receitas.

Definition macros_arredondados (acc : gmap string float) : list macro_somado :=
  map (fun item => {| tipo_somado := fst item; ValorTotal := round2 (snd item) |})
      (itens_ordenados acc).

(** Records with the same id, for the lookup examples. *)
Definition catalogo_repetido : list receita := [receita_pudim; receita_de 1 "Outro" []].

(** A request body [{"ids": "12"}]: the ids given as a string. *)
Definition corpo_ids_texto : list (string * json) := [("ids", JStr "12")].

(** Every macronutrient value and the calories of the record convert to
    [float]. *)
Definition macros_convertiveis (r : receita) : bool :=
  forallb (fun m => convertivel (Valor m))
          match Macronutrientes r with Some l => l | None => [] end
  && convertivel match CaloriasTotais r with Some c => c | None => NInt 0 end.

(** ** Rounding to two decimals, as the design words it

    [inteiro_mais_proximo a b n]: [n] is the integer nearest to the rational
    [a / b] (with [0 < b]), the even one of the two when [a / b] lies halfway
    between two integers. *)
Definition inteiro_mais_proximo (a b n : Z) : Prop :=
  Z.abs (2 * (a - n * b)) <= b
  /\ (Z.abs (2 * (a - n * b)) = b -> Z.even n = true).

(** [arredondado_2_casas x r]: [r] is [x] rounded to two decimal places.  A
    finite non-zero [x] of sign [s] is [m * 2^e] in magnitude; with [n] the
    integer nearest to [100 * m * 2^e], the decimal [n / 100] is [x] to two
    places and [r] is the binary64 value nearest to it, the IEEE quotient of
    the integers [n] and 100, with the sign of [x].  A zero, an infinity and a
    NaN are their own rounding. *)
Definition arredondado_2_casas (x r : float) : Prop :=
  match Prim2SF x with
  | S754_finite s m e =>
      exists n : Z,
        inteiro_mais_proximo (100 * Zpos m * 2 ^ Z.max e 0) (2 ^ Z.max (- e) 0) n
        /\ r = SF2Prim (SFdiv prec emax
                          match n with
                          | Zpos p => S754_finite s p 0
                          | _ => S754_zero s
                          end
                          (S754_finite false 100 0))
  | _ => r = x
  end.

(** Records whose totals need rounding: 0.125 and 0.375 lie halfway between
    two decimals, and 0.1 + 0.2 is 0.30000000000000004 in binary64. *)
Definition receita_oitavo : receita := receita_de 20 "Creme" [leite (NFloat 0.125)].
Definition receita_tres_oitavos : receita := receita_de 21 "Calda" [leite (NFloat 0.375)].
Definition receita_decimos : receita :=
  receita_de 22 "Vitamina" [leite (NFloat 0.1); leite (NFloat 0.2)].

(** ** The order of calories, as the design words it

    Numbers are ordered by their exact values: the rationals in their usual
    order between minus and plus infinity.  A NaN is below and above
    nothing. *)
Definition exato_menor (x y : exato) : Prop :=
  match x, y with
  | MenosInf, MenosInf => False
  | MenosInf, _ => True
  | Finito _, MenosInf => False
  | Finito p, Finito q => Qlt p q
  | Finito _, MaisInf => True
  | MaisInf, _ => False
  end.

Definition exato_ate (x y : exato) : Prop :=
  match x, y with
  | MenosInf, _ => True
  | Finito _, MenosInf => False
  | Finito p, Finito q => Qle p q
  | Finito _, MaisInf => True
  | MaisInf, MaisInf => True
  | MaisInf, _ => False
  end.

Definition menor (a b : numero) : Prop :=
  match valor_exato a, valor_exato b with
  | Some x, Some y => exato_menor x y
  | _, _ => False
  end.

Definition ate (a b : numero) : Prop :=
  match valor_exato a, valor_exato b with
  | Some x, Some y => exato_ate x y
  | _, _ => False
  end.

(** [r] is the first record of [l] with the maximum [totalCalories] (0 when
    absent): every record before it has strictly fewer calories and every
    record after it has at most as many.  Likewise for the minimum. *)
Definition primeiro_maximo (l : list receita) (r : receita) : Prop :=
  let totalCalories x :=
    match CaloriasTotais x with Some c => c | None => NInt 0 end in
  exists antes depois,
    l = antes ++ r :: depois
    /\ Forall (fun x => menor (totalCalories x) (totalCalories r)) antes
    /\ Forall (fun x => ate (totalCalories x) (totalCalories r)) depois.

Definition primeiro_minimo (l : list receita) (r : receita) : Prop :=
  let totalCalories x :=
    match CaloriasTotais x with Some c => c | None => NInt 0 end in
  exists antes depois,
    l = antes ++ r :: depois
    /\ Forall (fun x => menor (totalCalories r) (totalCalories x)) antes
    /\ Forall (fun x => ate (totalCalories r) (totalCalories x)) depois.

(** A catalog whose extremes are not its first record and are tied: 300
    calories in the second and fourth records, none (0) in the third and 0 in
    the fifth. *)
Definition receita_com_calorias (id : Z) (nome : string) (cal : numero) : receita := {|
  IdReceita := id;
  NomeReceita := nome;
  Tag := None;
  CaloriasTotais := Some cal;
  Ingredientes := None;
  Macronutrientes := None;
  Restricoes := None
|}.

Definition catalogo_calorias : list receita :=
  [receita_bolo; receita_pudim; receita_sem_tag;
   receita_com_calorias 4 "Torta" (NFloat 300);
   receita_com_calorias 5 "Cha" (NInt 0)].

(** Records whose calories and macronutrient totals need rounding: 100.125
    and 0.375 + 0.25 lie halfway between two decimals, and 2.675 is just
    below the half in binary64. *)
Definition receita_fina : receita := {|
  IdReceita := 30;
  NomeReceita := "Mousse";
  Tag := None;
  CaloriasTotais := Some (NFloat 100.125);
  Ingredientes := None;
  Macronutrientes := Some [ {| Tipo := "Proteina"; Valor := NFloat 0.375 |};
                            {| Tipo := "Gordura"; Valor := NFloat 2.675 |} ];
  Restricoes := None
|}.

Definition receita_proteica : receita := {|
  IdReceita := 31;
  NomeReceita := "Clara";
  Tag := None;
  CaloriasTotais := None;
  Ingredientes := None;
  Macronutrientes := Some [ {| Tipo := "Proteina"; Valor := NFloat 0.25 |} ];
  Restricoes := None
|}.

(** * The context mailbox *)

Lemma truthy_nao_nulo (v : json) : truthy v = true -> v <> JNull.
Proof. intros H ->. discriminate H. Qed.

Lemma enviar_aceito (data ctx : json) :
  truthy data = true ->
  enviar_contexto data ctx =
    ((Json (JDict [("sucesso", JBool true);
                   ("mensagem", JStr "Contexto salvo no servidor")]), 200), data).
Proof. intros H. unfold enviar_contexto. now rewrite H. Qed.

Lemma enviar_rejeitado (data ctx : json) :
  truthy data = false ->
  enviar_contexto data ctx = ((Erro "Dados inválidos", 400), ctx).
Proof. intros H. unfold enviar_contexto. now rewrite H. Qed.

Lemma enviar_status (data ctx : json) :
  status (fst (enviar_contexto data ctx)) = 200 <-> truthy data = true.
Proof.
  unfold enviar_contexto. destruct (truthy data); simpl; split; intros H;
    first [ reflexivity | discriminate H ].
Qed.

Lemma pegar_presente (ctx : json) :
  ctx <> JNull ->
  pegar_contexto ctx =
    ((Json (JDict [("sucesso", JBool true); ("dados", ctx)]), 200), JNull).
Proof. intros H. destruct ctx; try reflexivity. now destruct H. Qed.

(** C1. Mailbox round-trip: from any slot, a send of [X] that the server
    accepts followed by a take returns [X] with status 200 and leaves the slot
    empty, and the take after that fails with 404. *)
Theorem mailbox_round_trip (ctx X : json) :
  status (fst (enviar_contexto X ctx)) = 200 ->
  let ctx1 := snd (enviar_contexto X ctx) in
  pegar_contexto ctx1 =
    ((Json (JDict [("sucesso", JBool true); ("dados", X)]), 200), JNull)
  /\ pegar_contexto (snd (pegar_contexto ctx1)) =
       ((Erro "Nenhum contexto disponível", 404), JNull).
Proof.
  intros Hok. apply enviar_status in Hok.
  rewrite (enviar_aceito _ ctx Hok). simpl.
  rewrite (pegar_presente X (truthy_nao_nulo X Hok)). simpl.
  split; reflexivity.
Qed.

Lemma mailbox_round_trip_witness :
  status (fst (enviar_contexto contexto_exemplo (JStr "antigo"))) = 200
  /\ pegar_contexto (snd (enviar_contexto contexto_exemplo (JStr "antigo"))) =
       ((Json (JDict [("sucesso", JBool true); ("dados", contexto_exemplo)]), 200), JNull).
Proof.
  split; [ reflexivity | ].
  apply (mailbox_round_trip (JStr "antigo") contexto_exemplo). reflexivity.
Defined.

(** C2, as stated, fails: a send of the empty object is answered with 400 and
    leaves the slot as it was, so after [send(X); send({})] a take still
    returns [X]. *)
Lemma envio_vazio_rejeitado :
  enviar_contexto (JDict []) (JStr "X") = ((Erro "Dados inválidos", 400), JStr "X")
  /\ pegar_contexto (executar [Enviar (JStr "X"); Enviar (JDict [])] JNull) =
       ((Json (JDict [("sucesso", JBool true); ("dados", JStr "X")]), 200), JNull).
Proof. split; reflexivity. Qed.

(** C2, amended. A send of a truthy document succeeds whatever the slot held
    and makes the slot hold that document; after two sends, the second one
    truthy, a take returns the second document only and empties the slot.  A
    send of a falsy document is answered with 400 and changes nothing. *)
Theorem envio_sobrescreve (ctx X Y : json) :
  truthy Y = true ->
  enviar_contexto Y ctx =
    ((Json (JDict [("sucesso", JBool true);
                   ("mensagem", JStr "Contexto salvo no servidor")]), 200), Y)
  /\ pegar_contexto (executar [Enviar X; Enviar Y] ctx) =
       ((Json (JDict [("sucesso", JBool true); ("dados", Y)]), 200), JNull)
  /\ pegar_contexto (snd (pegar_contexto (executar [Enviar X; Enviar Y] ctx))) =
       ((Erro "Nenhum contexto disponível", 404), JNull)
  /\ (forall V : json, truthy V = false ->
        enviar_contexto V ctx = ((Erro "Dados inválidos", 400), ctx)).
Proof.
  intros HY. split; [ now apply enviar_aceito | ].
  assert (Hst : executar [Enviar X; Enviar Y] ctx = Y).
  { unfold executar. simpl. now rewrite enviar_aceito. }
  rewrite Hst, (pegar_presente Y (truthy_nao_nulo Y HY)). simpl.
  repeat split; auto using enviar_rejeitado.
Qed.

Lemma envio_sobrescreve_witness :
  truthy (JStr "Y") = true
  /\ pegar_contexto (executar [Enviar (JStr "X"); Enviar (JStr "Y")] JNull) =
       ((Json (JDict [("sucesso", JBool true); ("dados", JStr "Y")]), 200), JNull).
Proof.
  split; [ reflexivity | ].
  apply (envio_sobrescreve JNull (JStr "X") (JStr "Y")). reflexivity.
Defined.

(** The falsy documents. *)
Lemma falsy_casos (v : json) :
  truthy v = false <->
  v = JNull \/ v = JBool false \/ v = JNum (NInt 0)
  \/ (exists f, v = JNum (NFloat f) /\ float_is_zero f = true)
  \/ v = JStr "" \/ v = JList [] \/ v = JDict [].
Proof.
  split.
  - destruct v as [ | [] | [z | f] | [ | ] | [ | ] | [ | ] ]; simpl; intros H;
      try discriminate H; auto 10.
    + apply negb_false_iff, Z.eqb_eq in H. subst. auto 10.
    + apply negb_false_iff in H. eauto 10.
  - intros [-> | [-> | [-> | [(f & -> & Hf) | [-> | [-> | ->]]]]]]; simpl;
      try reflexivity.
    now rewrite Hf.
Qed.

Lemma atender_em_passo (p : pedido) (ctx : json) (c : caixa) :
  em_passo ctx c -> em_passo (snd (atender p ctx)) (atender_caixa p ctx c).
Proof.
  intros Hinv. destruct p as [data | ]; simpl.
  - destruct (truthy data) eqn:Hd.
    + rewrite (enviar_aceito _ _ Hd). simpl. auto.
    + rewrite (enviar_rejeitado _ _ Hd). simpl. exact Hinv.
  - destruct ctx; reflexivity.
Qed.

Lemma executar_em_passo (ps : list pedido) (ctx : json) (c : caixa) :
  em_passo ctx c ->
  em_passo (executar ps ctx) (executar_caixa ps ctx c).
Proof.
  revert ctx c. induction ps as [ | p ps IH]; intros ctx c Hinv.
  - exact Hinv.
  - change (executar (p :: ps) ctx) with (executar ps (snd (atender p ctx))).
    simpl. apply IH, atender_em_passo, Hinv.
Qed.

(** C10. A send of a falsy document (null, false, 0, 0.0, the empty string,
    list or object) is answered with 400 and leaves the slot unchanged; so after
    any sequence of sends and takes from the initial slot, the slot is [None]
    or a truthy document, it is [None] exactly when the mailbox of the design
    is empty, and otherwise it is the document the mailbox holds. *)
Theorem caixa_exata (ps : list pedido) :
  let ctx := executar ps JNull in
  let c := executar_caixa ps JNull Vazia in
  (forall data st : json,
     (data = JNull \/ data = JBool false \/ data = JNum (NInt 0)
      \/ (exists f, data = JNum (NFloat f) /\ float_is_zero f = true)
      \/ data = JStr "" \/ data = JList [] \/ data = JDict []) ->
     enviar_contexto data st = ((Erro "Dados inválidos", 400), st))
  /\ (ctx = JNull \/ truthy ctx = true)
  /\ (ctx = JNull <-> c = Vazia)
  /\ (forall v : json, c = Contendo v ->
        ctx = v /\
        pegar_contexto ctx =
          ((Json (JDict [("sucesso", JBool true); ("dados", v)]), 200), JNull)).
Proof.
  intros ctx c.
  assert (Hinv : em_passo ctx c) by (apply executar_em_passo; reflexivity).
  split.
  { intros data st H. now apply enviar_rejeitado, falsy_casos. }
  destruct c as [ | v]; simpl in Hinv.
  - rewrite Hinv. repeat split; auto; discriminate.
  - destruct Hinv as [-> Hv]. repeat split; auto.
    + intros ->. discriminate Hv.
    + discriminate.
    + now injection H as ->.
    + injection H as <-. now apply pegar_presente, truthy_nao_nulo.
Qed.

(** * Queries over the catalog *)

Lemma append_cons (c : Ascii.ascii) (s q : string) :
  String c s +:+ q = String c (s +:+ q).
Proof. reflexivity. Qed.

Lemma prefix_spec (s t : string) :
  String.prefix s t = true <-> exists q, t = s +:+ q.
Proof.
  revert s. induction t as [ | d t IH]; intros [ | c s]; simpl.
  - split; [ intros _; now exists "" | reflexivity ].
  - split; [ discriminate | intros [q Hq]; discriminate Hq ].
  - split; [ intros _; now exists (String d t) | reflexivity ].
  - destruct (Ascii.ascii_dec c d) as [-> | Hne].
    + rewrite IH. split; intros [q Hq]; exists q; rewrite append_cons in *; congruence.
    + split; [ discriminate | intros [q Hq]; rewrite append_cons in Hq; congruence ].
Qed.

Lemma contem_spec (t s : string) :
  contem t s = true <-> exists p q, t = p +:+ s +:+ q.
Proof.
  induction t as [ | c t IH]; cbn [contem].
  - rewrite orb_false_r, prefix_spec. split.
    + intros [q Hq]. now exists "", q.
    + intros (p & q & Hpq). destruct p; [ now exists q | discriminate Hpq ].
  - rewrite orb_true_iff, prefix_spec, IH. split.
    + intros [[q Hq] | (p & q & Hpq)].
      * now exists "", q.
      * exists (String c p), q. rewrite append_cons. now rewrite Hpq.
    + intros (p & q & Hpq). destruct p as [ | d p].
      * left. now exists q.
      * right. exists p, q. rewrite append_cons in Hpq. congruence.
Qed.

Lemma filter_sublist {A} (f : A -> bool) (l : list A) : sublist (List.filter f l) l.
Proof.
  induction l as [ | x l IH]; simpl; [ constructor | ].
  destruct (f x); now constructor.
Qed.

(** C8. [GET /receitas/buscar]: when [nome] is missing or empty the answer is
    the 400 error and no catalog record; otherwise the answer is 200 with, in
    catalog order, exactly the records whose lowered name contains the lowered
    term as a substring. *)
Theorem buscar_por_nome_correto
    (RECEITAS : list receita) (lower : string -> string) :
  buscar_por_nome RECEITAS lower None = (Erro erro_nome, 400)
  /\ buscar_por_nome RECEITAS lower (Some "") = (Erro erro_nome, 400)
  /\ forall (c : Ascii.ascii) (resto : string),
       let termo := String c resto in
       exists achadas,
         buscar_por_nome RECEITAS lower (Some termo) =
           (Json {| Busca.termo_busca := termo;
                    Busca.total := length achadas;
                    Busca.receitas := achadas |}, 200)
         /\ sublist achadas RECEITAS
         /\ forall r, r ∈ achadas <->
              r ∈ RECEITAS /\
              exists p q, lower (NomeReceita r) = p +:+ lower termo +:+ q.
Proof.
  split; [ reflexivity | ]. split; [ reflexivity | ].
  intros c resto termo. unfold buscar_por_nome. simpl.
  eexists. split; [ reflexivity | ]. unfold buscar_receitas_por_nome.
  split; [ apply filter_sublist | ].
  intros r. rewrite !list_elem_of_In, filter_In, contem_spec. reflexivity.
Qed.

(** With every record tagged, the filter is the one of the design. *)
Lemma filtrar_por_tag_com_tags
    (RECEITAS : list receita) (lower : string -> string) (tag : string) :
  Forall (fun r => is_Some (Tag r)) RECEITAS ->
  filtrar_por_tag RECEITAS lower tag =
    (Json {| PorTag.tag := tag;
             PorTag.total := length (byTag lower RECEITAS tag);
             PorTag.receitas := byTag lower RECEITAS tag |}, 200).
Proof.
  intros Htags. unfold filtrar_por_tag, byTag.
  assert (Heq : List.filter (fun r => String.eqb (lower (get (Tag r) "")) (lower tag)) RECEITAS
              = List.filter (fun r => String.eqb (lower (tag_efetiva r)) (lower tag)) RECEITAS).
  { induction Htags as [ | r l [t Ht] _ IH]; [ reflexivity | ].
    simpl. unfold tag_efetiva. rewrite Ht, IH. reflexivity. }
  now rewrite Heq.
Qed.

(** C5. [GET /receitas/tag/Outros] on a catalog with an untagged record: the
    view compares the query with the empty string for that record and leaves
    it out, where the design's [byTag] returns it. *)
Theorem filtrar_por_tag_ignora_sem_tag :
  filtrar_por_tag catalogo_exemplo lower_ascii "Outros" =
    (Json {| PorTag.tag := "Outros"; PorTag.total := 0; PorTag.receitas := [] |}, 200)
  /\ byTag lower_ascii catalogo_exemplo "Outros" = [receita_sem_tag].
Proof. split; reflexivity. Qed.

(** With every record tagged, the count of the view is the one of the design. *)
Lemma contar_tag_com_tags (RECEITAS : list receita) (tag : string) :
  Forall (fun r => is_Some (Tag r)) RECEITAS ->
  contar_tag RECEITAS tag = contagem_esperada RECEITAS tag.
Proof.
  intros Htags. unfold contar_tag, contagem_esperada. f_equal.
  induction Htags as [ | r l [t Ht] _ IH]; [ reflexivity | ].
  simpl. unfold tag_efetiva. rewrite Ht, IH. simpl.
  destruct (String.eqb_spec t tag) as [-> | Hne].
  - now rewrite bool_decide_eq_true_2.
  - rewrite bool_decide_eq_false_2; [ reflexivity | congruence ].
Qed.

(** C4. [GET /tags] on a catalog with an untagged record: ["Outros"] is listed
    but counted by comparing [r.get('Tag')], which is [None] for that record,
    so its count is 0 where the design counts 1, and the counts add up to 2
    for a catalog of 3 records. *)
Theorem listar_tags_nao_conta_sem_tag :
  exists corpo,
    listar_tags catalogo_exemplo = (Json corpo, 200)
    /\ Tags.tags corpo = ["Doce"; "Outros"]
    /\ Tags.contagem_por_tag corpo !! "Doce" = Some 2%nat
    /\ Tags.contagem_por_tag corpo !! "Outros" = Some 0%nat
    /\ contagem_esperada catalogo_exemplo "Outros" = 1%nat
    /\ soma_contagens (Tags.contagem_por_tag corpo) = 2%nat
    /\ length catalogo_exemplo = 3%nat.
Proof.
  eexists. split; [ reflexivity | ].
  repeat split; vm_compute; reflexivity.
Qed.

(** * Extremes by calories *)

(** ** The order of exact values *)

Lemma exato_compare_antisym (x y : exato) :
  exato_compare y x = CompOpp (exato_compare x y).
Proof.
  destruct x as [ | p | ], y as [ | q | ]; simpl; try reflexivity.
  symmetry. apply Qcompare_antisym.
Qed.

Lemma Qcompare_passa (x y z : Q) :
  Qcompare z y = Gt -> Qcompare x y <> Gt -> Qcompare z x = Gt.
Proof.
  intros Hzy Hxy. apply Qgt_alt. apply Qgt_alt in Hzy.
  apply Qle_lt_trans with y; [ | exact Hzy ].
  apply Qnot_lt_le. intros Hlt. apply Hxy. now apply Qgt_alt.
Qed.

Lemma exato_compare_passa (x y z : exato) :
  exato_compare z y = Gt -> exato_compare x y <> Gt -> exato_compare z x = Gt.
Proof.
  destruct x as [ | p | ], y as [ | q | ], z as [ | r | ]; simpl;
    try discriminate; try reflexivity; try congruence.
  apply Qcompare_passa.
Qed.

Lemma Qcompare_passa_lt (x y z : Q) :
  Qcompare z y = Lt -> Qcompare x y <> Lt -> Qcompare z x = Lt.
Proof.
  intros Hzy Hxy. apply Qlt_alt. apply Qlt_alt in Hzy.
  apply Qlt_le_trans with y; [ exact Hzy | ].
  apply Qnot_lt_le. intros Hlt. apply Hxy. now apply Qlt_alt.
Qed.

Lemma exato_compare_passa_lt (x y z : exato) :
  exato_compare z y = Lt -> exato_compare x y <> Lt -> exato_compare z x = Lt.
Proof.
  destruct x as [ | p | ], y as [ | q | ], z as [ | r | ]; simpl;
    try discriminate; try reflexivity; try congruence.
  apply Qcompare_passa_lt.
Qed.

Lemma py_lt_gt (a b : numero) : py_lt a b = py_gt b a.
Proof.
  unfold py_lt, py_gt, py_compare.
  destruct (valor_exato a) as [x | ], (valor_exato b) as [y | ]; try reflexivity.
  rewrite (exato_compare_antisym y x). now destruct (exato_compare y x).
Qed.

Lemma py_gt_asym (a b : numero) : py_gt a b = true -> py_gt b a = false.
Proof.
  unfold py_gt, py_compare.
  destruct (valor_exato a) as [x | ], (valor_exato b) as [y | ]; try discriminate.
  rewrite (exato_compare_antisym x y). now destruct (exato_compare x y).
Qed.

Lemma py_gt_passa (a b c : numero) :
  comparavel a = true -> comparavel b = true -> comparavel c = true ->
  py_gt c b = true -> py_gt a b = false -> py_gt c a = true.
Proof.
  unfold comparavel, py_gt, py_compare.
  destruct (valor_exato a) as [x | ], (valor_exato b) as [y | ],
    (valor_exato c) as [z | ]; try discriminate.
  intros _ _ _ Hcb Hab.
  rewrite (exato_compare_passa x y z); [ reflexivity | | ].
  - now destruct (exato_compare z y).
  - intros Hgt. now rewrite Hgt in Hab.
Qed.

Lemma py_gt_passa_baixo (a b c : numero) :
  comparavel a = true -> comparavel b = true -> comparavel c = true ->
  py_gt b c = true -> py_gt b a = false -> py_gt a c = true.
Proof.
  unfold comparavel, py_gt, py_compare.
  destruct (valor_exato a) as [x | ], (valor_exato b) as [y | ],
    (valor_exato c) as [z | ]; try discriminate.
  intros _ _ _ Hbc Hba.
  assert (Hzy : exato_compare z y = Lt).
  { rewrite (exato_compare_antisym y z). now destruct (exato_compare y z). }
  assert (Hxy : exato_compare x y <> Lt).
  { rewrite (exato_compare_antisym y x). intros Hlt.
    destruct (exato_compare y x); discriminate. }
  rewrite (exato_compare_antisym z x), (exato_compare_passa_lt x y z Hzy Hxy).
  reflexivity.
Qed.

(** ** The scan of [max] and [min] *)

Section Extremo.

Context {A : Type}.
Variable melhor : A -> A -> bool.
Variable P : A -> Prop.
Hypothesis melhor_asym :
  forall x y, P x -> P y -> melhor x y = true -> melhor y x = false.
Hypothesis melhor_passa :
  forall x y z, P x -> P y -> P z ->
    melhor z y = true -> melhor x y = false -> melhor z x = true.

Lemma fold_primeiro_extremo (resto : list A) :
  forall (antes : list A) (atual : A) (depois : list A),
    Forall P (antes ++ atual :: depois ++ resto) ->
    Forall (fun x => melhor atual x = true) antes ->
    Forall (fun x => melhor x atual = false) depois ->
    primeiro_extremo melhor (antes ++ atual :: depois ++ resto)
      (fold_left (fun atual item => if melhor item atual then item else atual)
                 resto atual).
Proof.
  induction resto as [ | item resto IH]; intros antes atual depois HP Hantes Hdepois.
  - simpl. rewrite app_nil_r. now exists antes, depois.
  - assert (HPs := HP). rewrite Forall_app, Forall_cons, Forall_app, Forall_cons in HPs.
    destruct HPs as (HPa & HPb & HPd & HPi & HPr).
    replace (antes ++ atual :: depois ++ item :: resto)
      with ((antes ++ atual :: depois) ++ item :: [] ++ resto)
      by (now rewrite <- app_assoc).
    simpl fold_left. destruct (melhor item atual) eqn:Hm.
    + apply IH.
      * simpl. rewrite <- app_assoc. exact HP.
      * rewrite Forall_app, Forall_cons. repeat split.
        -- rewrite Forall_forall in *. intros x Hx.
           apply melhor_passa with atual; auto using melhor_asym.
        -- exact Hm.
        -- rewrite Forall_forall in *. intros x Hx.
           apply melhor_passa with atual; auto.
      * constructor.
    + replace ((antes ++ atual :: depois) ++ item :: [] ++ resto)
        with (antes ++ atual :: (depois ++ [item]) ++ resto)
        by (simpl; now rewrite <- !app_assoc).
      apply IH.
      * rewrite <- app_assoc. exact HP.
      * exact Hantes.
      * rewrite Forall_app. split; [ exact Hdepois | now constructor ].
Qed.

Lemma py_extremo_primeiro (x : A) (l : list A) :
  Forall P (x :: l) ->
  exists r, py_extremo melhor (x :: l) = Some r
            /\ primeiro_extremo melhor (x :: l) r.
Proof.
  intros HP. eexists. split; [ reflexivity | ].
  apply (fold_primeiro_extremo l [] x []); auto.
Qed.

Lemma primeiro_extremo_nenhum_melhor (l : list A) (r : A) :
  Forall P l -> primeiro_extremo melhor l r ->
  Forall (fun x => melhor x r = false) l.
Proof.
  intros HP (antes & depois & -> & Ha & Hd).
  rewrite Forall_app, Forall_cons in HP. destruct HP as (HPa & HPr & HPd).
  rewrite Forall_app, Forall_cons. repeat split; [ | | exact Hd ].
  - rewrite Forall_forall in *. intros x Hx. apply melhor_asym; auto.
  - destruct (melhor r r) eqn:Hrr; [ | reflexivity ].
    now rewrite (melhor_asym r r HPr HPr Hrr) in Hrr.
Qed.

End Extremo.

Lemma comparaveis_Forall (RECEITAS : list receita) :
  forallb (fun r => comparavel (calorias r)) RECEITAS = true ->
  Forall (fun r => comparavel (calorias r) = true) RECEITAS.
Proof. rewrite forallb_forall, Forall_forall. intros H x Hx. apply H. now apply list_elem_of_In. Qed.

(** ** Comparisons and the order of exact values *)

Lemma exato_compare_menor (x y : exato) :
  exato_compare x y = Gt <-> exato_menor y x.
Proof.
  destruct x as [ | p | ], y as [ | q | ]; simpl;
    try (split; [ discriminate | tauto ]); try tauto.
  symmetry. apply Qgt_alt.
Qed.

Lemma exato_compare_ate (x y : exato) :
  exato_compare x y <> Gt <-> exato_ate x y.
Proof.
  destruct x as [ | p | ], y as [ | q | ]; simpl;
    try (split; [ congruence | tauto ]); try (split; [ tauto | discriminate ]).
  symmetry. apply Qle_alt.
Qed.

Lemma py_gt_menor (a b : numero) : py_gt a b = true <-> menor b a.
Proof.
  unfold py_gt, py_compare, menor.
  destruct (valor_exato a) as [x | ], (valor_exato b) as [y | ];
    try (split; [ discriminate | tauto ]).
  rewrite <- exato_compare_menor.
  destruct (exato_compare x y); split; congruence.
Qed.

Lemma py_gt_ate (a b : numero) :
  comparavel a = true -> comparavel b = true ->
  py_gt a b = false -> ate a b.
Proof.
  unfold comparavel, py_gt, py_compare, ate.
  destruct (valor_exato a) as [x | ], (valor_exato b) as [y | ]; try discriminate.
  intros _ _ H. apply exato_compare_ate. intros Hgt. now rewrite Hgt in H.
Qed.

Lemma menor_inteiros (a b : Z) : menor (NInt a) (NInt b) <-> a < b.
Proof. unfold menor. simpl. now rewrite Zlt_Qlt. Qed.

Lemma ate_inteiros (a b : Z) : ate (NInt a) (NInt b) <-> a <= b.
Proof. unfold ate. simpl. now rewrite Zle_Qle. Qed.

Lemma extremos_por_comparacao (x : receita) (l : list receita) :
  forallb (fun r => comparavel (calorias r)) (x :: l) = true ->
  exists mais menos,
    py_max calorias (x :: l) = Some mais
    /\ py_min calorias (x :: l) = Some menos
    /\ primeiro_extremo (fun a b => py_gt (calorias a) (calorias b)) (x :: l) mais
    /\ primeiro_extremo (fun a b => py_lt (calorias a) (calorias b)) (x :: l) menos.
Proof.
  intros Hcmp. apply comparaveis_Forall in Hcmp.
  set (P := fun r : receita => comparavel (calorias r) = true) in *.
  assert (Hmax_asym : forall a b, P a -> P b ->
            py_gt (calorias a) (calorias b) = true ->
            py_gt (calorias b) (calorias a) = false).
  { intros a b _ _. apply py_gt_asym. }
  assert (Hmax_passa : forall a b c, P a -> P b -> P c ->
            py_gt (calorias c) (calorias b) = true ->
            py_gt (calorias a) (calorias b) = false ->
            py_gt (calorias c) (calorias a) = true).
  { intros a b c Ha Hb Hc. now apply py_gt_passa. }
  assert (Hmin_asym : forall a b, P a -> P b ->
            py_lt (calorias a) (calorias b) = true ->
            py_lt (calorias b) (calorias a) = false).
  { intros a b _ _. rewrite !py_lt_gt. apply py_gt_asym. }
  assert (Hmin_passa : forall a b c, P a -> P b -> P c ->
            py_lt (calorias c) (calorias b) = true ->
            py_lt (calorias a) (calorias b) = false ->
            py_lt (calorias c) (calorias a) = true).
  { intros a b c Ha Hb Hc. rewrite !py_lt_gt. now apply py_gt_passa_baixo. }
  destruct (py_extremo_primeiro _ P Hmax_asym Hmax_passa x l Hcmp) as (mais & Emais & Hmais).
  destruct (py_extremo_primeiro _ P Hmin_asym Hmin_passa x l Hcmp) as (menos & Emenos & Hmenos).
  exists mais, menos. unfold py_max, py_min. auto.
Qed.

(** C9. [GET /stats] on a catalog whose calorie values are numbers (no NaN):
    for an empty catalog both extremes are absent; otherwise the most caloric
    record is the first record with the maximum [CaloriasTotais] (0 when the
    key is absent), every record before it having strictly fewer calories and
    every record after it at most as many, and the least caloric record is
    the first with the minimum.  Calories are compared by value, integers as
    integers.  In the catalog with calories 250.5, 300, none, 300.0 and 0 the
    extremes are the second and the third record. *)
Theorem estatisticas_extremos (RECEITAS : list receita) :
  forallb (fun r => comparavel
                      match CaloriasTotais r with Some c => c | None => NInt 0 end)
          RECEITAS = true ->
  (exists corpo,
     estatisticas RECEITAS = (Json corpo, 200)
     /\ match RECEITAS with
        | [] =>
            Stats.receita_mais_calorica corpo = None
            /\ Stats.receita_menos_calorica corpo = None
        | _ =>
            exists mais menos,
              Stats.receita_mais_calorica corpo = Some mais
              /\ Stats.receita_menos_calorica corpo = Some menos
              /\ primeiro_maximo RECEITAS mais
              /\ primeiro_minimo RECEITAS menos
        end)
  /\ (forall a b : Z, (menor (NInt a) (NInt b) <-> a < b) /\ (ate (NInt a) (NInt b) <-> a <= b))
  /\ (exists corpo,
        estatisticas catalogo_calorias = (Json corpo, 200)
        /\ Stats.receita_mais_calorica corpo = Some receita_pudim
        /\ Stats.receita_menos_calorica corpo = Some receita_sem_tag).
Proof.
  intros Hcmp.
  split; [ | split; [ intros a b; split; [ apply menor_inteiros | apply ate_inteiros ] | ] ].
  2: { eexists. split; [ reflexivity | ]. split; vm_compute; reflexivity. }
  eexists. split; [ reflexivity | ]. simpl.
  destruct RECEITAS as [ | x l]; [ split; reflexivity | ].
  destruct (extremos_por_comparacao x l Hcmp)
    as (mais & menos & Emais & Emenos & Hmais & Hmenos).
  pose proof (comparaveis_Forall _ Hcmp) as HP. rewrite Forall_forall in HP.
  exists mais, menos. rewrite Emais, Emenos.
  split; [ reflexivity | ]. split; [ reflexivity | ]. split.
  - destruct Hmais as (antes & depois & Heq & Ha & Hd).
    exists antes, depois. split; [ exact Heq | ].
    assert (Hin : forall y, y ∈ antes ++ mais :: depois -> comparavel (calorias y) = true).
    { intros y Hy. apply HP. now rewrite Heq. }
    split.
    + eapply Forall_impl; [ exact Ha | ]. intros y Hy. now apply py_gt_menor.
    + rewrite Forall_forall in *. intros y Hy.
      apply (py_gt_ate (calorias y) (calorias mais)).
      * apply Hin, elem_of_app. right. now right.
      * apply Hin, elem_of_app. right. left.
      * now apply Hd.
  - destruct Hmenos as (antes & depois & Heq & Ha & Hd).
    exists antes, depois. split; [ exact Heq | ].
    assert (Hin : forall y, y ∈ antes ++ menos :: depois -> comparavel (calorias y) = true).
    { intros y Hy. apply HP. now rewrite Heq. }
    split.
    + eapply Forall_impl; [ exact Ha | ]. intros y Hy. cbv beta in Hy.
      rewrite py_lt_gt in Hy. now apply py_gt_menor in Hy.
    + rewrite Forall_forall in *. intros y Hy.
      apply (py_gt_ate (calorias menos) (calorias y)).
      * apply Hin, elem_of_app. right. left.
      * apply Hin, elem_of_app. right. now right.
      * rewrite <- py_lt_gt. now apply Hd.
Qed.

Lemma estatisticas_extremos_witness :
  forallb (fun r => comparavel
                      match CaloriasTotais r with Some c => c | None => NInt 0 end)
          catalogo_calorias = true
  /\ exists corpo,
       estatisticas catalogo_calorias = (Json corpo, 200)
       /\ exists mais menos,
            Stats.receita_mais_calorica corpo = Some mais
            /\ Stats.receita_menos_calorica corpo = Some menos
            /\ primeiro_maximo catalogo_calorias mais
            /\ primeiro_minimo catalogo_calorias menos.
Proof.
  split; [ vm_compute; reflexivity | ].
  destruct (estatisticas_extremos catalogo_calorias) as [H _]; [ vm_compute; reflexivity | ].
  exact H.
Defined.

(** * Aggregation *)

Lemma map_fmap {A B} (f : A -> B) (l : list A) : map f l = f <$> l.
Proof. reflexivity. Qed.

(** ** Conversions that do not raise *)

Lemma py_float_convertivel (n : numero) :
  convertivel n = true -> py_float n = Ret (float_de n).
Proof.
  unfold convertivel. destruct n as [z | f]; simpl; [ | reflexivity ].
  destruct (float_of_Z z); simpl; intros H; first [ reflexivity | discriminate H ].
Qed.

Lemma somar_lista_ingredientes_ok (ings : list ingrediente) :
  forall acc,
    forallb (fun ing => convertivel (Quantidade ing)) ings = true ->
    somar_lista_ingredientes ings acc = Ret (fold_left passo_ingrediente ings acc).
Proof.
  induction ings as [ | ing ings IH]; intros acc Hc; [ reflexivity | ].
  simpl in Hc. apply andb_true_iff in Hc as [Hq Hc].
  simpl. rewrite (py_float_convertivel _ Hq). simpl. now apply IH.
Qed.

Lemma acumular_ingredientes_ok (lista : list receita) :
  forall acc,
    forallb (fun ing => convertivel (Quantidade ing)) (ocorrencias lista) = true ->
    acumular_ingredientes lista acc =
      Ret (fold_left passo_ingrediente (ocorrencias lista) acc).
Proof.
  induction lista as [ | r lista IH]; intros acc Hc; [ reflexivity | ].
  unfold ocorrencias in Hc. simpl in Hc. rewrite forallb_app in Hc.
  apply andb_true_iff in Hc as [Hr Hc].
  simpl. rewrite (somar_lista_ingredientes_ok _ _ Hr). simpl.
  unfold ocorrencias. simpl. rewrite fold_left_app. now apply IH.
Qed.

(** ** The accumulator, name by name *)

Lemma lookup_passo_ingrediente (acc : gmap string float) (ing : ingrediente) (nome : string) :
  passo_ingrediente acc ing !! nome =
    if String.eqb (NomeIngrediente ing) nome
    then Some (default 0%float (acc !! nome) + float_de (Quantidade ing))%float
    else acc !! nome.
Proof.
  unfold passo_ingrediente, somar_em. rewrite lookup_insert.
  destruct (String.eqb_spec (NomeIngrediente ing) nome) as [-> | Hne].
  - now rewrite decide_True.
  - now rewrite decide_False.
Qed.

Lemma lookup_fold_passo (ings : list ingrediente) (nome : string) :
  forall acc,
    fold_left passo_ingrediente ings acc !! nome = total_de nome ings (acc !! nome).
Proof.
  induction ings as [ | ing ings IH]; intros acc; [ reflexivity | ].
  simpl. rewrite IH, lookup_passo_ingrediente.
  unfold total_de, quantidades_de. simpl.
  now destruct (String.eqb (NomeIngrediente ing) nome).
Qed.

Lemma fold_total_Some (qs : list float) (x : float) :
  fold_left (fun o q => Some (default 0%float o + q)%float) qs (Some x) =
    Some (fold_left PrimFloat.add qs x).
Proof. revert x. induction qs as [ | q qs IH]; intros x; simpl; auto. Qed.

Lemma total_de_vazio (nome : string) (ings : list ingrediente) :
  total_de nome ings None =
    match quantidades_de nome ings with
    | [] => None
    | qs => Some (fold_left PrimFloat.add qs 0%float)
    end.
Proof.
  unfold total_de. destruct (quantidades_de nome ings) as [ | q qs]; [ reflexivity | ].
  simpl. apply fold_total_Some.
Qed.


Lemma quantidades_de_presente (nome : string) (ings : list ingrediente) :
  quantidades_de nome ings <> [] <->
  exists ing, ing ∈ ings /\ NomeIngrediente ing = nome.
Proof.
  unfold quantidades_de. induction ings as [ | ing ings IH]; simpl.
  - split; [ congruence | intros (ing & Hin & _); inversion Hin ].
  - destruct (String.eqb_spec (NomeIngrediente ing) nome) as [He | Hne]; simpl.
    + split; [ intros _ | discriminate ]. exists ing. split; [ left | exact He ].
    + rewrite IH. split; intros (x & Hin & Hx).
      * exists x. split; [ now right | exact Hx ].
      * apply elem_of_cons in Hin as [-> | Hin]; [ contradiction | eauto ].
Qed.

Lemma total_de_presente (nome : string) (ings : list ingrediente) :
  is_Some (total_de nome ings None) <->
  exists ing, ing ∈ ings /\ NomeIngrediente ing = nome.
Proof.
  rewrite total_de_vazio, <- quantidades_de_presente.
  destruct (quantidades_de nome ings) as [ | q qs].
  - split; [ intros [x Hx]; discriminate Hx | congruence ].
  - split; [ discriminate | eauto ].
Qed.

(** ** The sorted items of an accumulator *)

#[local] Instance le_chave_total :
  Total (fun a b : string * float => String.le (fst a) (fst b)).
Proof. intros a b. apply (total String.le). Qed.

Lemma itens_ordenados_elem (acc : gmap string float) (nome : string) (t : float) :
  (nome, t) ∈ itens_ordenados acc <-> acc !! nome = Some t.
Proof.
  unfold itens_ordenados. rewrite merge_sort_Permutation. apply elem_of_map_to_list.
Qed.

Lemma chaves_Sorted (acc : gmap string float) :
  Sorted String.le ((itens_ordenados acc).*1).
Proof.
  apply (Sorted_fmap _ (fun a b : string * float => String.le (fst a) (fst b)));
    [ auto | ].
  apply Sorted_merge_sort. apply _.
Qed.

Lemma chaves_NoDup (acc : gmap string float) : NoDup ((itens_ordenados acc).*1).
Proof.
  unfold itens_ordenados. rewrite merge_sort_Permutation. apply NoDup_fst_map_to_list.
Qed.

Lemma chaves_elem (acc : gmap string float) (nome : string) :
  nome ∈ (itens_ordenados acc).*1 <-> is_Some (acc !! nome).
Proof.
  rewrite list_elem_of_fmap. split.
  - intros ([k t] & -> & H). apply itens_ordenados_elem in H. now exists t.
  - intros [t Ht]. exists (nome, t). split; [ reflexivity | ].
    now apply itens_ordenados_elem.
Qed.

Lemma chaves_unicas (m1 m2 : gmap string float) :
  (forall nome, is_Some (m1 !! nome) <-> is_Some (m2 !! nome)) ->
  (itens_ordenados m1).*1 = (itens_ordenados m2).*1.
Proof.
  intros H. apply (Sorted_unique String.le); auto using chaves_Sorted.
  apply NoDup_Permutation; auto using chaves_NoDup.
  intros nome. rewrite !chaves_elem. apply H.
Qed.

Lemma nomes_entradas (acc : gmap string float) :
  map nome_somado (entradas_arredondadas acc) = (itens_ordenados acc).*1.
Proof. unfold entradas_arredondadas. rewrite map_map. reflexivity. Qed.

Lemma entradas_elem (acc : gmap string float) (e : ingrediente_somado) :
  e ∈ entradas_arredondadas acc <->
  exists t, acc !! nome_somado e = Some t /\ QuantidadeTotal e = round2 t.
Proof.
  unfold entradas_arredondadas. rewrite map_fmap, list_elem_of_fmap. split.
  - intros ([k t] & -> & H). apply itens_ordenados_elem in H. now exists t.
  - intros (t & Ht & Hr). exists (nome_somado e, t). split.
    + destruct e as [n q]. simpl in *. now rewrite Hr.
    + now apply itens_ordenados_elem.
Qed.

Lemma somar_ingredientes_ok (lista : list receita) :
  forallb (fun ing => convertivel (Quantidade ing)) (ocorrencias lista) = true ->
  somar_ingredientes lista =
    Ret (entradas_arredondadas (fold_left passo_ingrediente (ocorrencias lista) ∅)).
Proof.
  intros Hc. unfold somar_ingredientes.
  now rewrite (acumular_ingredientes_ok _ _ Hc).
Qed.

(** ** Rounding to two decimals *)

Lemma rne_div_proximo (a b : Z) :
  0 < b -> inteiro_mais_proximo a b (rne_div a b).
Proof.
  intros Hb. unfold inteiro_mais_proximo, rne_div.
  pose proof (Z.div_mod a b ltac:(lia)) as Hdm.
  pose proof (Z.mod_pos_bound a b Hb) as Hr.
  set (q := a / b) in *. set (r := a mod b) in *.
  destruct (Z.compare_spec (2 * r) b) as [He | Hl | Hg].
  - destruct (Z.even q) eqn:Hq.
    + split; [ | intros _; exact Hq ].
      replace (a - q * b) with r by lia. lia.
    + split; [ replace (a - (q + 1) * b) with (r - b) by lia; lia | ].
      intros _. rewrite Z.even_add, Hq. reflexivity.
  - split; replace (a - q * b) with r by lia; lia.
  - split; replace (a - (q + 1) * b) with (r - b) by lia; lia.
Qed.

Lemma inteiro_mais_proximo_unico (a b n1 n2 : Z) :
  0 < b -> inteiro_mais_proximo a b n1 -> inteiro_mais_proximo a b n2 -> n1 = n2.
Proof.
  intros Hb [H1 E1] [H2 E2].
  assert (Hd : -1 <= n1 - n2 <= 1) by nia.
  assert (Hc : n1 - n2 = 0 \/ n1 - n2 = 1 \/ n1 - n2 = -1) by lia.
  destruct Hc as [Hc | [Hc | Hc]]; [ lia | | ].
  - assert (T1 : Z.abs (2 * (a - n1 * b)) = b) by nia.
    assert (T2 : Z.abs (2 * (a - n2 * b)) = b) by nia.
    specialize (E1 T1). specialize (E2 T2).
    replace n1 with (n2 + 1) in E1 by lia.
    rewrite Z.even_add, E2 in E1. discriminate E1.
  - assert (T1 : Z.abs (2 * (a - n1 * b)) = b) by nia.
    assert (T2 : Z.abs (2 * (a - n2 * b)) = b) by nia.
    specialize (E1 T1). specialize (E2 T2).
    replace n2 with (n1 + 1) in E2 by lia.
    rewrite Z.even_add, E1 in E2. discriminate E2.
Qed.

Lemma centesimos_proximo (m : positive) (e : Z) :
  inteiro_mais_proximo (100 * Zpos m * 2 ^ Z.max e 0) (2 ^ Z.max (- e) 0) (centesimos m e).
Proof.
  destruct e as [ | p | p]; unfold centesimos.
  - change (Z.max 0 0) with 0. change (Z.max (- 0) 0) with 0.
    unfold inteiro_mais_proximo. change (2 ^ 0) with 1. split; lia.
  - rewrite Z.max_l by lia. rewrite Z.max_r by lia.
    unfold inteiro_mais_proximo. change (2 ^ 0) with 1. split; lia.
  - rewrite Z.max_r by lia. change (- Z.neg p) with (Z.pos p). rewrite Z.max_l by lia.
    change (2 ^ 0) with 1. rewrite Z.mul_1_r.
    apply rne_div_proximo. apply Z.pow_pos_nonneg; lia.
Qed.

(** [round2] rounds to two decimals, and only one value does. *)
Lemma round2_arredondado (x : float) : arredondado_2_casas x (round2 x).
Proof.
  unfold arredondado_2_casas, round2.
  destruct (Prim2SF x) as [s | s | | s m e]; try reflexivity.
  exists (centesimos m e). split; [ apply centesimos_proximo | reflexivity ].
Qed.

Lemma arredondado_unico (x r1 r2 : float) :
  arredondado_2_casas x r1 -> arredondado_2_casas x r2 -> r1 = r2.
Proof.
  unfold arredondado_2_casas. destruct (Prim2SF x) as [s | s | | s m e]; try congruence.
  intros (n1 & H1 & ->) (n2 & H2 & ->).
  assert (Hb : 0 < 2 ^ Z.max (- e) 0) by (apply Z.pow_pos_nonneg; lia).
  now rewrite (inteiro_mais_proximo_unico _ _ n1 n2 Hb H1 H2).
Qed.

(** C6. When every quantity converts to [float], [somar_ingredientes] returns
    one entry per ingredient name that occurs in the records, the names in
    increasing lexicographic order without repetition, and the total of a
    name is the [float] sum, from 0.0 and in order of occurrence, of the
    quantities listed under exactly that name, rounded to two decimal places:
    the binary64 value nearest to [n / 100], with [n] the integer nearest to
    one hundred times the sum (the even one on a tie).  Two records with
    ["Leite"] 100 and 50 give the single entry ["Leite"], 150.0; 0.125 gives
    0.12, 0.375 gives 0.38, and 0.1 with 0.2 gives 0.3. *)
Theorem somar_ingredientes_correto (lista_receitas : list receita) :
  forallb (fun ing => convertivel (Quantidade ing)) (ocorrencias lista_receitas) = true ->
  (exists saida,
     somar_ingredientes lista_receitas = Ret saida
     /\ Sorted String.le (map nome_somado saida)
     /\ NoDup (map nome_somado saida)
     /\ (forall nome,
           nome ∈ map nome_somado saida <->
           exists ing, ing ∈ ocorrencias lista_receitas /\ NomeIngrediente ing = nome)
     /\ (forall e,
           e ∈ saida ->
           arredondado_2_casas
             (fold_left PrimFloat.add
                (quantidades_de (nome_somado e) (ocorrencias lista_receitas))
                0%float)
             (QuantidadeTotal e)))
  /\ somar_ingredientes [receita_pudim; receita_bolo] =
       Ret [ {| nome_somado := "Leite"; QuantidadeTotal := 150 |} ]
  /\ somar_ingredientes [receita_oitavo] =
       Ret [ {| nome_somado := "Leite"; QuantidadeTotal := 0.12 |} ]
  /\ somar_ingredientes [receita_tres_oitavos] =
       Ret [ {| nome_somado := "Leite"; QuantidadeTotal := 0.38 |} ]
  /\ somar_ingredientes [receita_decimos] =
       Ret [ {| nome_somado := "Leite"; QuantidadeTotal := 0.3 |} ].
Proof.
  intros Hc. split; [ | repeat split; vm_compute; reflexivity ].
  eexists. split; [ now apply somar_ingredientes_ok | ].
  rewrite nomes_entradas.
  split; [ apply chaves_Sorted | ]. split; [ apply chaves_NoDup | ]. split.
  - intros nome. rewrite chaves_elem, lookup_fold_passo, lookup_empty.
    apply total_de_presente.
  - intros e He. apply entradas_elem in He as (t & Ht & ->).
    rewrite lookup_fold_passo, lookup_empty, total_de_vazio in Ht.
    destruct (quantidades_de (nome_somado e) (ocorrencias lista_receitas));
      [ discriminate Ht | ].
    injection Ht as <-. apply round2_arredondado.
Qed.

Lemma somar_ingredientes_correto_witness :
  forallb (fun ing => convertivel (Quantidade ing))
          (ocorrencias [receita_pudim; receita_bolo]) = true
  /\ exists saida,
       somar_ingredientes [receita_pudim; receita_bolo] = Ret saida
       /\ Sorted String.le (map nome_somado saida)
       /\ NoDup (map nome_somado saida).
Proof.
  split; [ vm_compute; reflexivity | ].
  destruct (somar_ingredientes_correto [receita_pudim; receita_bolo])
    as [(saida & Hs & Hsorted & Hnodup & _) _]; [ vm_compute; reflexivity | ].
  exists saida. auto.
Defined.

(** * Aggregation over a list of ids *)



Lemma resolver_vazio (RECEITAS : list receita) (ids : list json) :
  resolver RECEITAS ids = [] <->
  forall rid, rid ∈ ids -> buscar_receita_por_id RECEITAS rid = None.
Proof.
  unfold resolver. induction ids as [ | rid ids IH]; simpl.
  - split; [ intros _ rid H; inversion H | reflexivity ].
  - destruct (buscar_receita_por_id RECEITAS rid) as [r | ] eqn:Hb.
    + split; [ discriminate | ]. intros H.
      specialize (H rid (list_elem_of_here _ _)). congruence.
    + rewrite IH. split.
      * intros H x Hx. apply elem_of_cons in Hx as [-> | Hx]; auto.
      * intros H x Hx. apply H. now right.
Qed.






Lemma truthy_com_ids (d : list (string * json)) (ids : json) :
  dict_get d "ids" = Some ids -> truthy (JDict d) = true.
Proof. intros Hd. destruct d; [ discriminate Hd | reflexivity ]. Qed.






(** * Aggregating by parts *)


Lemma quantidades_de_app (nome : string) (xs ys : list ingrediente) :
  quantidades_de nome (xs ++ ys) = quantidades_de nome xs ++ quantidades_de nome ys.
Proof. unfold quantidades_de. now rewrite List.filter_app, map_app. Qed.








(** * Lookup by id *)

Lemma find_primeiro {A} (f : A -> bool) (l : list A) :
  match List.find f l with
  | Some r =>
      exists antes depois,
        l = antes ++ r :: depois /\ f r = true /\ Forall (fun x => f x = false) antes
  | None => Forall (fun x => f x = false) l
  end.
Proof.
  induction l as [ | x l IH]; simpl; [ constructor | ].
  destruct (f x) eqn:Hx.
  - exists [], l. repeat split; auto.
  - destruct (List.find f l) as [r | ].
    + destruct IH as (antes & depois & -> & Hr & Hantes).
      exists (x :: antes), depois. repeat split; auto.
    + now constructor.
Qed.

Lemma int_eq_json_int (z id : Z) :
  int_eq_json z (JNum (NInt id)) = true <-> z = id.
Proof.
  unfold int_eq_json, py_eq, py_compare. simpl. split.
  - destruct (Qcompare (inject_Z z) (inject_Z id)) eqn:Hc; try discriminate.
    intros _. apply <- Qeq_alt in Hc. now apply -> inject_Z_injective in Hc.
  - intros ->.
    assert (E : Qcompare (inject_Z id) (inject_Z id) = Eq)
      by (apply Qeq_alt; reflexivity).
    now rewrite E.
Qed.

Lemma int_eq_json_int_false (z id : Z) :
  int_eq_json z (JNum (NInt id)) = false <-> z <> id.
Proof. rewrite <- int_eq_json_int. now destruct (int_eq_json z (JNum (NInt id))). Qed.

(** X1. [buscar_receita_por_id] with an integer id returns the first record
    of the catalog whose ['IdReceita'] is that id, and [None] exactly when no
    record has it. *)
Theorem buscar_receita_por_id_primeira (RECEITAS : list receita) (id : Z) :
  match buscar_receita_por_id RECEITAS (JNum (NInt id)) with
  | Some r =>
      exists antes depois,
        RECEITAS = antes ++ r :: depois
        /\ IdReceita r = id
        /\ Forall (fun x => IdReceita x <> id) antes
  | None => Forall (fun x => IdReceita x <> id) RECEITAS
  end.
Proof.
  unfold buscar_receita_por_id.
  pose proof (find_primeiro
    (fun receita => int_eq_json (IdReceita receita) (JNum (NInt id))) RECEITAS) as H.
  destruct (List.find _ RECEITAS) as [r | ].
  - destruct H as (antes & depois & -> & Hr & Hantes).
    exists antes, depois. repeat split; [ now apply int_eq_json_int | ].
    eapply Forall_impl; [ exact Hantes | ]. intros x. apply int_eq_json_int_false.
  - eapply Forall_impl; [ exact H | ]. intros x. apply int_eq_json_int_false.
Qed.

(** X2. When the ids of the catalog are distinct, every record of the
    catalog is what the lookup of its own id returns. *)
Theorem buscar_receita_por_id_propria (RECEITAS : list receita) (r : receita) :
  NoDup (map IdReceita RECEITAS) ->
  r ∈ RECEITAS ->
  buscar_receita_por_id RECEITAS (JNum (NInt (IdReceita r))) = Some r.
Proof.
  intros Hnd Hr. unfold buscar_receita_por_id.
  pose proof (find_primeiro
    (fun receita => int_eq_json (IdReceita receita) (JNum (NInt (IdReceita r))))
    RECEITAS) as H.
  destruct (List.find _ RECEITAS) as [r' | ].
  - destruct H as (antes & depois & -> & Hid & _). apply int_eq_json_int in Hid. f_equal.
    rewrite map_app in Hnd. simpl in Hnd.
    apply NoDup_app in Hnd as (Hna & Hdisj & Hnd').
    apply NoDup_cons in Hnd' as [Hr' _].
    apply elem_of_app in Hr as [Hr | Hr].
    + exfalso. apply (Hdisj (IdReceita r)).
      * rewrite map_fmap. apply list_elem_of_fmap. eauto.
      * rewrite Hid. left.
    + apply elem_of_cons in Hr as [-> | Hr]; [ reflexivity | ].
      exfalso. apply Hr'. rewrite Hid, map_fmap. apply list_elem_of_fmap. eauto.
  - rewrite Forall_forall in H. specialize (H r Hr).
    apply int_eq_json_int_false in H. now destruct H.
Qed.

Lemma buscar_receita_por_id_propria_witness :
  NoDup (map IdReceita catalogo_exemplo)
  /\ receita_bolo ∈ catalogo_exemplo
  /\ buscar_receita_por_id catalogo_exemplo (JNum (NInt (IdReceita receita_bolo))) =
       Some receita_bolo.
Proof.
  assert (Hnd : NoDup (map IdReceita catalogo_exemplo)).
  { apply (bool_decide_unpack _). vm_compute. reflexivity. }
  assert (Hin : receita_bolo ∈ catalogo_exemplo) by (right; left).
  split; [ exact Hnd | ]. split; [ exact Hin | ].
  exact (buscar_receita_por_id_propria catalogo_exemplo receita_bolo Hnd Hin).
Defined.

Lemma find_nenhum {A} (f : A -> bool) (l : list A) :
  Forall (fun x => f x = false) l -> List.find f l = None.
Proof. induction 1 as [ | x l Hx _ IH]; simpl; [ reflexivity | now rewrite Hx ]. Qed.

Lemma find_apos {A} (f : A -> bool) (antes : list A) (r : A) (depois : list A) :
  f r = true -> Forall (fun x => f x = false) antes ->
  List.find f (antes ++ r :: depois) = Some r.
Proof.
  intros Hr. induction 1 as [ | x l Hx _ IH]; simpl; [ now rewrite Hr | now rewrite Hx ].
Qed.

Lemma buscar_receita_por_id_ausente (RECEITAS : list receita) (id : Z) :
  Forall (fun x => IdReceita x <> id) RECEITAS ->
  buscar_receita_por_id RECEITAS (JNum (NInt id)) = None.
Proof.
  intros H. apply find_nenhum. eapply Forall_impl; [ exact H | ].
  intros x. apply int_eq_json_int_false.
Qed.

Lemma buscar_receita_por_id_presente
    (antes : list receita) (r : receita) (depois : list receita) :
  Forall (fun x => IdReceita x <> IdReceita r) antes ->
  buscar_receita_por_id (antes ++ r :: depois) (JNum (NInt (IdReceita r))) = Some r.
Proof.
  intros H. apply find_apos; [ now apply int_eq_json_int | ].
  eapply Forall_impl; [ exact H | ]. intros x. apply int_eq_json_int_false.
Qed.

(** X3. The four views of one recipe agree.  When no record has the id each
    of them answers 404; otherwise each answers 200 with the data of the first
    record that has the id: the record itself, or the id with the record's
    name and its ingredients, calories and macronutrients, or restrictions,
    a list being empty and the calories null when the key is absent. *)
Theorem detalhes_por_id (RECEITAS : list receita) (id : Z) :
  (Forall (fun x => IdReceita x <> id) RECEITAS ->
     obter_receita RECEITAS id = (Erro erro_nao_encontrada, 404)
     /\ obter_ingredientes RECEITAS id = (Erro erro_nao_encontrada, 404)
     /\ obter_macros RECEITAS id = (Erro erro_nao_encontrada, 404)
     /\ obter_restricoes RECEITAS id = (Erro erro_nao_encontrada, 404))
  /\ (forall antes r depois,
        RECEITAS = antes ++ r :: depois ->
        IdReceita r = id ->
        Forall (fun x => IdReceita x <> id) antes ->
        obter_receita RECEITAS id = (Json r, 200)
        /\ obter_ingredientes RECEITAS id =
             (Json {| DetalheIngredientes.IdReceita := id;
                      DetalheIngredientes.NomeReceita := NomeReceita r;
                      DetalheIngredientes.Ingredientes :=
                        match Ingredientes r with Some l => l | None => [] end |}, 200)
        /\ obter_macros RECEITAS id =
             (Json {| DetalheMacros.IdReceita := id;
                      DetalheMacros.NomeReceita := NomeReceita r;
                      DetalheMacros.CaloriasTotais := CaloriasTotais r;
                      DetalheMacros.Macronutrientes :=
                        match Macronutrientes r with Some l => l | None => [] end |}, 200)
        /\ obter_restricoes RECEITAS id =
             (Json {| DetalheRestricoes.IdReceita := id;
                      DetalheRestricoes.NomeReceita := NomeReceita r;
                      DetalheRestricoes.Restricoes :=
                        match Restricoes r with Some l => l | None => [] end |}, 200)).
Proof.
  split.
  - intros H. unfold obter_receita, obter_ingredientes, obter_macros, obter_restricoes.
    rewrite (buscar_receita_por_id_ausente _ _ H). repeat split.
  - intros antes r depois -> <- Hantes.
    unfold obter_receita, obter_ingredientes, obter_macros, obter_restricoes.
    rewrite (buscar_receita_por_id_presente _ _ _ Hantes). repeat split.
Qed.

Lemma find_ext_bool {A} (f g : A -> bool) (l : list A) :
  (forall x, f x = g x) -> List.find f l = List.find g l.
Proof.
  intros H. induction l as [ | x l IH]; simpl; [ reflexivity | ].
  now rewrite H, IH.
Qed.

(** X4. An id that is not a number never finds a record: [null], a string
    (so ["1"] is not the id 1), a list or an object give [None] on every
    catalog.  [true] and [false] are looked up as the ids 1 and 0. *)
Theorem buscar_receita_por_id_nao_inteiro (RECEITAS : list receita) :
  buscar_receita_por_id RECEITAS JNull = None
  /\ (forall s, buscar_receita_por_id RECEITAS (JStr s) = None)
  /\ (forall l, buscar_receita_por_id RECEITAS (JList l) = None)
  /\ (forall d, buscar_receita_por_id RECEITAS (JDict d) = None)
  /\ (forall b : bool,
        buscar_receita_por_id RECEITAS (JBool b) =
        buscar_receita_por_id RECEITAS (JNum (NInt (if b then 1 else 0)))).
Proof.
  assert (Hnone : forall v, (forall z, int_eq_json z v = false) ->
                            buscar_receita_por_id RECEITAS v = None).
  { intros v Hv. apply find_nenhum, Forall_forall. intros x _. apply Hv. }
  repeat split; intros; try (apply Hnone; reflexivity).
  apply find_ext_bool. intros x. simpl.
  destruct (Z.eqb_spec (IdReceita x) (if b then 1 else 0)) as [He | Hne].
  - symmetry. now apply int_eq_json_int.
  - symmetry. now apply int_eq_json_int_false.
Qed.

(** * The request body of the aggregation views *)

Lemma resolver_textos (RECEITAS : list receita) (l : list json) :
  Forall (fun v => exists s, v = JStr s) l -> resolver RECEITAS l = [].
Proof.
  intros H. apply resolver_vazio. intros rid Hin.
  rewrite Forall_forall in H. destruct (H rid Hin) as [s ->].
  apply find_nenhum, Forall_forall. reflexivity.
Qed.

Lemma caracteres_textos (s : string) : Forall (fun v => exists t, v = JStr t) (caracteres s).
Proof. induction s; simpl; constructor; eauto. Qed.

Lemma chaves_textos (d : list (string * json)) :
  Forall (fun v => exists t, v = JStr t) (map (fun kv => JStr (fst kv)) d).
Proof. induction d; simpl; constructor; eauto. Qed.

(** X5. The two aggregation views validate the body alike.  A falsy body and
    an object without the key ['ids'] are answered with 400.  No other body
    that is not an object is ever answered with 200 or 404: a list or a string
    is answered with 400 unless it contains ["ids"] (as an element, as a
    substring), and then, like a number or [true], it makes the view raise
    [TypeError]. *)
Theorem corpo_sem_ids (RECEITAS : list receita) (data : json) :
  let ing := ingredientes_multiplas_receitas RECEITAS data in
  let mac := macros_multiplas_receitas RECEITAS data in
  (truthy data = false ->
     ing = Ret (Erro erro_ids, 400) /\ mac = Ret (Erro erro_ids, 400))
  /\ (forall d, data = JDict d -> dict_get d "ids" = None ->
        ing = Ret (Erro erro_ids, 400) /\ mac = Ret (Erro erro_ids, 400))
  /\ (forall l, data = JList l ->
        if existsb (fun x => json_eq_str x "ids") l
        then ing = Raise TypeError /\ mac = Raise TypeError
        else ing = Ret (Erro erro_ids, 400) /\ mac = Ret (Erro erro_ids, 400))
  /\ (forall s, data = JStr s ->
        if contem s "ids"
        then ing = Raise TypeError /\ mac = Raise TypeError
        else ing = Ret (Erro erro_ids, 400) /\ mac = Ret (Erro erro_ids, 400))
  /\ (truthy data = true ->
      (exists b, data = JBool b) \/ (exists n, data = JNum n) ->
      ing = Raise TypeError /\ mac = Raise TypeError).
Proof.
  intros ing mac.
  unfold ing, mac, ingredientes_multiplas_receitas, macros_multiplas_receitas.
  split; [ intros Hf; now rewrite Hf | ].
  split.
  { intros d -> Hd. destruct d as [ | kv d]; [ split; reflexivity | ].
    simpl truthy. simpl negb. cbv iota. unfold py_in. rewrite Hd. split; reflexivity. }
  split.
  { intros l ->. destruct l as [ | x l]; [ split; reflexivity | ].
    simpl truthy. simpl negb. cbv iota. unfold py_in.
    destruct (existsb _ (x :: l)); split; reflexivity. }
  split.
  { intros s ->. destruct s as [ | c s]; [ split; reflexivity | ].
    simpl truthy. simpl negb. cbv iota. unfold py_in.
    destruct (contem (String c s) "ids"); split; reflexivity. }
  intros Ht [[b ->] | [n ->]]; rewrite Ht; split; reflexivity.
Qed.

(** X6. When ['ids'] is not a list the views do not reject the body.  A
    string is iterated by character and an object by key, no item is an
    integer, so on every catalog the answer is 404; [null], a boolean and a
    number cannot be iterated and the view raises [TypeError]. *)
Theorem ids_que_nao_sao_lista
    (RECEITAS : list receita) (d : list (string * json)) (v : json) :
  dict_get d "ids" = Some v ->
  let ing := ingredientes_multiplas_receitas RECEITAS (JDict d) in
  let mac := macros_multiplas_receitas RECEITAS (JDict d) in
  match v with
  | JList _ => True
  | JStr _ | JDict _ =>
      ing = Ret (Erro erro_nenhuma, 404) /\ mac = Ret (Erro erro_nenhuma, 404)
  | JNull | JBool _ | JNum _ =>
      ing = Raise TypeError /\ mac = Raise TypeError
  end.
Proof.
  intros Hd ing mac.
  unfold ing, mac, ingredientes_multiplas_receitas, macros_multiplas_receitas.
  rewrite (truthy_com_ids d _ Hd). unfold py_in, py_getitem. rewrite Hd.
  rewrite bool_decide_eq_true_2 by eauto.
  destruct v as [ | b | n | s | l | d']; try (split; reflexivity).
  - simpl. rewrite (resolver_textos RECEITAS _ (caracteres_textos s)). split; reflexivity.
  - simpl. rewrite (resolver_textos RECEITAS _ (chaves_textos d')). split; reflexivity.
Qed.

Lemma ids_que_nao_sao_lista_witness :
  dict_get corpo_ids_texto "ids" = Some (JStr "12")
  /\ ingredientes_multiplas_receitas catalogo_exemplo (JDict corpo_ids_texto) =
       Ret (Erro erro_nenhuma, 404)
  /\ macros_multiplas_receitas catalogo_exemplo (JDict corpo_ids_texto) =
       Ret (Erro erro_nenhuma, 404).
Proof.
  split; [ reflexivity | ].
  apply (ids_que_nao_sao_lista catalogo_exemplo corpo_ids_texto (JStr "12")).
  reflexivity.
Defined.

(** X7. The records aggregated follow the ids that have a record, one by
    one and in order: an id listed twice is aggregated twice, and ids
    without a record leave no trace. *)
Theorem resolver_em_ordem (RECEITAS : list receita) (ids : list json) :
  Forall2 (fun rid r => buscar_receita_por_id RECEITAS rid = Some r)
          (List.filter (fun rid => bool_decide (is_Some (buscar_receita_por_id RECEITAS rid))) ids)
          (resolver RECEITAS ids)
  /\ (forall ids', resolver RECEITAS (ids ++ ids') =
                   resolver RECEITAS ids ++ resolver RECEITAS ids').
Proof.
  split; [ | intros ids'; apply omap_app ].
  unfold resolver. induction ids as [ | rid ids IH]; simpl; [ constructor | ].
  destruct (buscar_receita_por_id RECEITAS rid) as [r | ] eqn:Hb.
  - rewrite bool_decide_eq_true_2 by eauto. now constructor.
  - rewrite bool_decide_eq_false_2; [ exact IH | ]. intros [x Hx]. discriminate Hx.
Qed.

(** * Runs of the mailbox *)

Lemma executar_snoc (ps : list pedido) (p : pedido) (ctx : json) :
  executar (ps ++ [p]) ctx = snd (atender p (executar ps ctx)).
Proof. unfold executar. now rewrite fold_left_app. Qed.

Lemma executar_cons (p : pedido) (ps : list pedido) (ctx : json) :
  executar (p :: ps) ctx = executar ps (snd (atender p ctx)).
Proof. reflexivity. Qed.

Lemma atender_rejeitado (p : pedido) (ctx : json) :
  rejeitado p -> snd (atender p ctx) = ctx.
Proof.
  destruct p as [data | ]; simpl; [ | tauto ].
  intros H. now rewrite (enviar_rejeitado _ _ H).
Qed.

Lemma executar_rejeitados (ps : list pedido) (ctx : json) :
  Forall rejeitado ps -> executar ps ctx = ctx.
Proof.
  induction 1 as [ | p ps Hp _ IH]; [ reflexivity | ].
  now rewrite executar_cons, (atender_rejeitado _ _ Hp).
Qed.

(** X8. In every run of the mailbox, from any slot, the takes answered with
    a document never outnumber the sends that were accepted, but for the one
    document the slot may hold at the start: no document is delivered twice. *)
Theorem entregas_nao_excedem_envios (ps : list pedido) (ctx : json) :
  (length (List.filter entregue (historico ps ctx))
   <= length (List.filter aceito (historico ps ctx))
      + match ctx with JNull => 0 | _ => 1 end)%nat.
Proof.
  revert ctx. induction ps as [ | p ps IH]; intros ctx; [ simpl; lia | ].
  destruct p as [data | ].
  - simpl historico. destruct (truthy data) eqn:Hd.
    + rewrite (enviar_aceito _ ctx Hd). simpl.
      specialize (IH data). destruct data; try discriminate Hd; lia.
    + rewrite (enviar_rejeitado _ ctx Hd). simpl. apply IH.
  - simpl historico. specialize (IH JNull).
    destruct ctx; simpl in *; lia.
Qed.

Lemma executar_forma (ps : list pedido) (ctx0 : json) :
  (executar ps ctx0 = ctx0 /\ Forall rejeitado ps)
  \/ (executar ps ctx0 = JNull
      /\ exists antes depois, ps = antes ++ Pegar :: depois /\ Forall rejeitado depois)
  \/ (exists antes depois,
        ps = antes ++ Enviar (executar ps ctx0) :: depois
        /\ truthy (executar ps ctx0) = true
        /\ Forall rejeitado depois).
Proof.
  induction ps as [ | p ps IH] using rev_ind; [ left; split; [ reflexivity | constructor ] | ].
  rewrite executar_snoc. destruct p as [data | ].
  - simpl atender. destruct (truthy data) eqn:Hd.
    + rewrite (enviar_aceito _ _ Hd). simpl. right. right.
      exists ps, []. repeat split; auto.
    + rewrite (enviar_rejeitado _ _ Hd). simpl.
      assert (Hr : rejeitado (Enviar data)) by exact Hd.
      destruct IH as [[He Hf] | [(He & antes & depois & -> & Hf) | (antes & depois & Hps & Ht & Hf)]].
      * left. split; [ exact He | ]. apply Forall_app. split; [ exact Hf | now constructor ].
      * right. left. split; [ exact He | ].
        exists antes, (depois ++ [Enviar data]). split.
        -- now rewrite <- app_assoc.
        -- apply Forall_app. split; [ exact Hf | now constructor ].
      * right. right. exists antes, (depois ++ [Enviar data]). split; [ | split ].
        -- rewrite Hps at 1. now rewrite <- app_assoc.
        -- exact Ht.
        -- apply Forall_app. split; [ exact Hf | now constructor ].
  - right. left. split.
    + simpl. now destruct (executar ps ctx0).
    + exists ps, []. split; [ reflexivity | constructor ].
Qed.

Lemma pegar_dados (ctx v : json) :
  fst (pegar_contexto ctx) =
    (Json (JDict [("sucesso", JBool true); ("dados", v)]), 200) ->
  ctx = v /\ ctx <> JNull.
Proof.
  destruct ctx; simpl; intros H; try discriminate H;
    injection H as <-; split; congruence.
Qed.

(** X9. After a run from the empty slot, a take returns the document [v]
    exactly when [v] was sent and accepted and nothing came after that send
    but sends that were rejected: the latest accepted send wins, and a take
    in between leaves nothing to return. *)
Theorem pegar_devolve_ultimo_envio (ps : list pedido) (v : json) :
  fst (pegar_contexto (executar ps JNull)) =
    (Json (JDict [("sucesso", JBool true); ("dados", v)]), 200)
  <-> exists antes depois,
        ps = antes ++ Enviar v :: depois
        /\ truthy v = true
        /\ Forall rejeitado depois.
Proof.
  split.
  - intros H. apply pegar_dados in H as [Hv Hnn].
    destruct (executar_forma ps JNull)
      as [[He _] | [(He & _) | (antes & depois & Hps & Ht & Hf)]];
      try contradiction.
    rewrite Hv in Hps, Ht. eauto.
  - intros (antes & depois & -> & Ht & Hf).
    unfold executar. rewrite fold_left_app. simpl. rewrite (enviar_aceito _ _ Ht). simpl.
    fold (executar depois v). rewrite (executar_rejeitados _ _ Hf).
    now rewrite (pegar_presente v (truthy_nao_nulo v Ht)).
Qed.

(** * Tags *)

Lemma tags_fold (RECEITAS : list receita) (inicial : gset string) (t : string) :
  t ∈ fold_left (fun (tags : gset string) receita => tags ∪ {[ get (Tag receita) "Outros" ]})
         RECEITAS inicial
  <-> t ∈ inicial \/ exists r, r ∈ RECEITAS /\ tag_efetiva r = t.
Proof.
  revert inicial. induction RECEITAS as [ | x l IH]; intros inicial; simpl.
  - split; [ auto | ]. intros [H | (r & Hr & _)]; [ exact H | inversion Hr ].
  - rewrite IH, elem_of_union, elem_of_singleton. unfold tag_efetiva. split.
    + intros [[H | ->] | (r & Hr & Ht)]; [ now left | right | right ].
      * exists x. split; [ left | reflexivity ].
      * exists r. split; [ now right | exact Ht ].
    + intros [H | (r & Hr & Ht)]; [ now left; left | ].
      apply elem_of_cons in Hr as [-> | Hr]; [ left; right; now symmetry | right; eauto ].
Qed.

Lemma tags_unicas_NoDup (RECEITAS : list receita) : NoDup (obter_tags_unicas RECEITAS).
Proof. unfold obter_tags_unicas. rewrite merge_sort_Permutation. apply NoDup_elements. Qed.

Lemma tags_unicas_elem (RECEITAS : list receita) (t : string) :
  t ∈ obter_tags_unicas RECEITAS <-> exists r, r ∈ RECEITAS /\ tag_efetiva r = t.
Proof.
  unfold obter_tags_unicas.
  rewrite merge_sort_Permutation, elem_of_elements, tags_fold, elem_of_empty. tauto.
Qed.

(** X10. [obter_tags_unicas] returns the tags of the catalog, ["Outros"]
    standing for a missing tag, each once and in increasing order; a tag is
    listed exactly when some record carries it. *)
Theorem obter_tags_unicas_correto (RECEITAS : list receita) :
  Sorted String.le (obter_tags_unicas RECEITAS)
  /\ NoDup (obter_tags_unicas RECEITAS)
  /\ forall t, t ∈ obter_tags_unicas RECEITAS <->
       exists r, r ∈ RECEITAS /\ match Tag r with Some x => x | None => "Outros" end = t.
Proof.
  split; [ | split ].
  - unfold obter_tags_unicas. apply Sorted_merge_sort. apply _.
  - apply tags_unicas_NoDup.
  - intros t. rewrite tags_unicas_elem. unfold tag_efetiva, get, default. tauto.
Qed.

(** ** Counting by tag *)

Lemma contar_tag_cons (r : receita) (RECEITAS : list receita) (t : string) :
  contar_tag (r :: RECEITAS) t =
    ((if bool_decide (Tag r = Some t) then 1 else 0) + contar_tag RECEITAS t)%nat.
Proof. unfold contar_tag. simpl. now destruct (bool_decide (Tag r = Some t)). Qed.

Lemma sum_list_soma (f g : string -> nat) (ts : list string) :
  sum_list (map (fun t => f t + g t)%nat ts) =
    (sum_list (map f ts) + sum_list (map g ts))%nat.
Proof. induction ts as [ | t ts IH]; simpl; [ reflexivity | rewrite IH; lia ]. Qed.

Lemma sum_list_uma_tag (o : option string) (ts : list string) :
  NoDup ts ->
  sum_list (map (fun t => if bool_decide (o = Some t) then 1 else 0)%nat ts) =
    match o with
    | Some t => if bool_decide (t ∈ ts) then 1%nat else 0%nat
    | None => 0%nat
    end.
Proof.
  induction 1 as [ | t ts Hnotin Hnd IH].
  - now destruct o.
  - change (sum_list (map (fun t => if bool_decide (o = Some t) then 1 else 0)%nat (t :: ts)))
      with ((if bool_decide (o = Some t) then 1 else 0)
            + sum_list (map (fun t => if bool_decide (o = Some t) then 1 else 0)%nat ts))%nat.
    rewrite IH. destruct o as [x | ]; [ | now rewrite bool_decide_eq_false_2 by discriminate ].
    destruct (decide (x = t)) as [-> | Hne].
    + rewrite (bool_decide_eq_true_2 (Some t = Some t)) by reflexivity.
      rewrite (bool_decide_eq_false_2 (t ∈ ts)) by exact Hnotin.
      now rewrite bool_decide_eq_true_2 by left.
    + rewrite (bool_decide_eq_false_2 (Some x = Some t)) by congruence.
      destruct (decide (x ∈ ts)) as [Hin | Hnin].
      * rewrite !bool_decide_eq_true_2; auto. now right.
      * rewrite !bool_decide_eq_false_2; auto.
        intros H. apply elem_of_cons in H as [? | ?]; contradiction.
Qed.

Lemma soma_contar_tag (RECEITAS : list receita) (ts : list string) :
  NoDup ts ->
  sum_list (map (contar_tag RECEITAS) ts) =
    length (List.filter
              (fun r => match Tag r with
                        | Some t => bool_decide (t ∈ ts)
                        | None => false
                        end) RECEITAS).
Proof.
  intros Hnd. induction RECEITAS as [ | r l IH].
  - simpl. induction ts as [ | t ts IHt]; [ reflexivity | ].
    simpl. apply NoDup_cons in Hnd as [_ Hnd]. now rewrite IHt.
  - rewrite (map_ext _ (fun t => (if bool_decide (Tag r = Some t) then 1 else 0)
                                 + contar_tag l t)%nat)
      by (intros t; apply contar_tag_cons).
    rewrite sum_list_soma, IH, (sum_list_uma_tag _ _ Hnd). simpl.
    destruct (Tag r) as [t | ]; [ | reflexivity ].
    now destruct (bool_decide (t ∈ ts)).
Qed.

(** X11. [GET /tags] counts, for each tag it lists and for no other string,
    the records whose ['Tag'] key holds that tag; the counts add up to the
    number of records that have the key, which is the size of the catalog
    when every record is tagged. *)
Theorem listar_tags_contagem (RECEITAS : list receita) :
  exists corpo,
    listar_tags RECEITAS = (Json corpo, 200)
    /\ Tags.tags corpo = obter_tags_unicas RECEITAS
    /\ (forall t n,
          Tags.contagem_por_tag corpo !! t = Some n <->
          t ∈ Tags.tags corpo
          /\ n = length (List.filter (fun r => bool_decide (Tag r = Some t)) RECEITAS))
    /\ soma_contagens (Tags.contagem_por_tag corpo) =
         length (List.filter
                   (fun r => match Tag r with Some _ => true | None => false end)
                   RECEITAS)
    /\ (Forall (fun r => is_Some (Tag r)) RECEITAS ->
        soma_contagens (Tags.contagem_por_tag corpo) = length RECEITAS).
Proof.
  eexists. split; [ reflexivity | ]. simpl.
  pose proof (tags_unicas_NoDup RECEITAS) as Hnd.
  pose proof (tags_unicas_elem RECEITAS) as Htags.
  set (tags := obter_tags_unicas RECEITAS) in *.
  set (l := map (fun tag => (tag, contar_tag RECEITAS tag)) tags).
  assert (Hfst : map fst l = tags).
  { unfold l. rewrite map_map. simpl. apply map_id. }
  assert (Hndl : NoDup (l.*1)).
  { change (l.*1) with (map fst l). now rewrite Hfst. }
  assert (Hsoma : soma_contagens (list_to_map l) =
                  length (List.filter
                            (fun r => match Tag r with Some _ => true | None => false end)
                            RECEITAS)).
  { unfold soma_contagens.
    assert (Hp : map snd (map_to_list (list_to_map l : gmap string nat)) ≡ₚ map snd l).
    { rewrite !map_fmap. apply fmap_Permutation, map_to_list_to_map, Hndl. }
    rewrite Hp.
    replace (map snd l) with (map (contar_tag RECEITAS) tags)
      by (unfold l; now rewrite map_map).
    rewrite (soma_contar_tag RECEITAS tags Hnd). f_equal.
    apply filter_ext_in. intros r Hr. destruct (Tag r) as [t | ] eqn:Ht; [ | reflexivity ].
    apply bool_decide_eq_true_2, Htags. exists r.
    split; [ now apply list_elem_of_In | unfold tag_efetiva; now rewrite Ht ]. }
  split; [ reflexivity | ]. split; [ | split; [ exact Hsoma | ] ].
  - intros t n. rewrite <- (elem_of_list_to_map l t n Hndl).
    unfold l. rewrite map_fmap, list_elem_of_fmap. unfold contar_tag. split.
    + intros (x & Heq & Hx). injection Heq as -> ->. auto.
    + intros [Ht ->]. exists t. auto.
  - intros Hall. rewrite Hsoma. f_equal. clear -Hall.
    induction Hall as [ | r rest [t Ht] _ IH]; [ reflexivity | ].
    simpl. rewrite Ht. simpl. now rewrite IH.
Qed.

(** X12. [GET /receitas/tag/<tag>] for a query that does not lower to the
    lowered empty string: the records answered are those of the design's
    [byTag] that have the key ['Tag'], in catalog order, and [total] is their
    number.  Untagged records are never answered, whatever the query. *)
Theorem filtrar_por_tag_so_com_tag
    (RECEITAS : list receita) (lower : string -> string) (tag : string) :
  String.eqb (lower "") (lower tag) = false ->
  let com_tag :=
    List.filter (fun r => match Tag r with Some _ => true | None => false end)
                (byTag lower RECEITAS tag) in
  filtrar_por_tag RECEITAS lower tag =
    (Json {| PorTag.tag := tag;
             PorTag.total := length com_tag;
             PorTag.receitas := com_tag |}, 200).
Proof.
  intros Hvazio com_tag. unfold filtrar_por_tag.
  assert (Heq : List.filter (fun r => String.eqb (lower (get (Tag r) "")) (lower tag)) RECEITAS
              = com_tag).
  { unfold com_tag, byTag, tag_efetiva.
    induction RECEITAS as [ | r l IH]; [ reflexivity | ]. simpl.
    destruct (Tag r) as [t | ] eqn:Ht; simpl.
    - destruct (String.eqb (lower t) (lower tag)); simpl; rewrite ?Ht; now rewrite IH.
    - rewrite Hvazio.
      destruct (String.eqb (lower "Outros") (lower tag)); simpl; rewrite ?Ht; exact IH. }
  now rewrite Heq.
Qed.

Lemma filtrar_por_tag_so_com_tag_witness :
  String.eqb (lower_ascii "") (lower_ascii "Outros") = false
  /\ filtrar_por_tag catalogo_exemplo lower_ascii "Outros" =
       (Json {| PorTag.tag := "Outros"; PorTag.total := 0; PorTag.receitas := [] |}, 200).
Proof.
  split; [ reflexivity | ].
  apply (filtrar_por_tag_so_com_tag catalogo_exemplo lower_ascii "Outros"). reflexivity.
Defined.

(** * Aggregation of macronutrients *)

Lemma somar_lista_macros_como (macros : list macronutriente) :
  forall acc,
    somar_lista_macros macros acc =
    somar_lista_ingredientes (map como_ingrediente macros) acc.
Proof.
  induction macros as [ | m macros IH]; intros acc; [ reflexivity | ].
  simpl. destruct (py_float (Valor m)); simpl; [ apply IH | reflexivity ].
Qed.

Lemma forallb_como (macros : list macronutriente) :
  forallb (fun ing => convertivel (Quantidade ing)) (map como_ingrediente macros) =
  forallb (fun m => convertivel (Valor m)) macros.
Proof. induction macros as [ | m macros IH]; simpl; [ reflexivity | now rewrite IH ]. Qed.

Lemma acumular_macros_total (lista : list receita) :
  forall acc calorias_total,
    forallb macros_convertiveis lista = true ->
    convertivel calorias_total = true ->
    acumular_macros lista acc calorias_total =
      Ret (fold_left passo_ingrediente (ocorrencias_macros lista) acc,
           match lista with
           | [] => calorias_total
           | _ => NFloat (fold_left PrimFloat.add
                            (map (fun r => float_de match CaloriasTotais r with
                                                    | Some c => c
                                                    | None => NInt 0
                                                    end) lista)
                            (float_de calorias_total))
           end).
Proof.
  induction lista as [ | r lista IH]; intros acc cal Hl Hcal; [ reflexivity | ].
  simpl in Hl. apply andb_true_iff in Hl as [Hr Hl].
  unfold macros_convertiveis in Hr. apply andb_true_iff in Hr as [Hm Hc].
  simpl acumular_macros.
  change (get (CaloriasTotais r) (NInt 0))
    with (match CaloriasTotais r with Some c => c | None => NInt 0 end).
  rewrite (py_float_convertivel _ Hc), (py_float_convertivel _ Hcal). simpl mbind.
  rewrite somar_lista_macros_como, somar_lista_ingredientes_ok
    by (now rewrite forallb_como).
  simpl mbind. rewrite IH; [ | exact Hl | reflexivity ].
  unfold ocorrencias_macros. simpl flat_map. rewrite fold_left_app.
  destruct lista; reflexivity.
Qed.

Lemma nomes_macros (acc : gmap string float) :
  map tipo_somado (macros_arredondados acc) = (itens_ordenados acc).*1.
Proof. unfold macros_arredondados. rewrite map_map. reflexivity. Qed.

Lemma macros_elem (acc : gmap string float) (e : macro_somado) :
  e ∈ macros_arredondados acc <->
  exists t, acc !! tipo_somado e = Some t /\ ValorTotal e = round2 t.
Proof.
  unfold macros_arredondados. rewrite map_fmap, list_elem_of_fmap. split.
  - intros ([k t] & -> & H). apply itens_ordenados_elem in H. now exists t.
  - intros (t & Ht & Hr). exists (tipo_somado e, t). split.
    + destruct e as [n q]. simpl in *. now rewrite Hr.
    + now apply itens_ordenados_elem.
Qed.

(** X13. When the macronutrient values and the calories convert to [float],
    [somar_macros] returns as calories the [int] 0 for no record and otherwise
    a [float]: the [float] sum, from 0.0 and in record order, of the calories
    of the records (0 when absent), rounded to two decimal places; and one
    entry per macronutrient type that occurs, the types in increasing order
    without repetition, the total of a type being the [float] sum of the
    values listed under exactly that type, rounded to two decimal places.
    Rounding is to the nearest decimal of two places, to the even one from
    halfway: calories 100.125 and none give 100.12, values 0.375 and 0.25 of
    one type give 0.62, and 2.675 gives 2.67. *)
Theorem somar_macros_correto (lista_receitas : list receita) :
  forallb macros_convertiveis lista_receitas = true ->
  (exists saida,
     somar_macros lista_receitas = Ret saida
     /\ match lista_receitas with
        | [] => calorias_somadas saida = NInt 0
        | _ =>
            exists total,
              calorias_somadas saida = NFloat total
              /\ arredondado_2_casas
                   (fold_left PrimFloat.add
                      (map (fun r => float_de match CaloriasTotais r with
                                              | Some c => c
                                              | None => NInt 0
                                              end) lista_receitas)
                      0%float)
                   total
        end
     /\ Sorted String.le (map tipo_somado (macros_somados saida))
     /\ NoDup (map tipo_somado (macros_somados saida))
     /\ (forall tipo,
           tipo ∈ map tipo_somado (macros_somados saida) <->
           exists r m, r ∈ lista_receitas
                       /\ m ∈ match Macronutrientes r with Some l => l | None => [] end
                       /\ Tipo m = tipo)
     /\ (forall e,
           e ∈ macros_somados saida ->
           arredondado_2_casas
             (fold_left PrimFloat.add
                (quantidades_de (tipo_somado e) (ocorrencias_macros lista_receitas))
                0%float)
             (ValorTotal e)))
  /\ somar_macros [receita_fina; receita_proteica] =
       Ret {| calorias_somadas := NFloat 100.12;
              macros_somados := [ {| tipo_somado := "Gordura"; ValorTotal := 2.67 |};
                                  {| tipo_somado := "Proteina"; ValorTotal := 0.62 |} ] |}.
Proof.
  intros Hc. split; [ | vm_compute; reflexivity ]. unfold somar_macros.
  rewrite (acumular_macros_total _ ∅ (NInt 0) Hc eq_refl). simpl mbind.
  eexists. split; [ reflexivity | ]. simpl calorias_somadas. simpl macros_somados.
  split.
  { destruct lista_receitas; [ reflexivity | ].
    eexists. split; [ reflexivity | apply round2_arredondado ]. }
  fold (macros_arredondados
          (fold_left passo_ingrediente (ocorrencias_macros lista_receitas) ∅)).
  rewrite nomes_macros.
  split; [ apply chaves_Sorted | ]. split; [ apply chaves_NoDup | ]. split.
  - intros tipo. rewrite chaves_elem, lookup_fold_passo, lookup_empty, total_de_presente.
    unfold ocorrencias_macros. split.
    + intros (ing & Hin & Hn). apply list_elem_of_In, in_flat_map in Hin as (r & Hr & Hin).
      apply in_map_iff in Hin as (m & <- & Hm).
      exists r, m. repeat split; [ now apply list_elem_of_In | now apply list_elem_of_In | exact Hn ].
    + intros (r & m & Hr & Hm & Ht). exists (como_ingrediente m). split; [ | exact Ht ].
      apply list_elem_of_In, in_flat_map. exists r. split; [ now apply list_elem_of_In | ].
      apply in_map. now apply list_elem_of_In.
  - intros e He. apply macros_elem in He as (t & Ht & ->).
    rewrite lookup_fold_passo, lookup_empty, total_de_vazio in Ht.
    destruct (quantidades_de (tipo_somado e) (ocorrencias_macros lista_receitas));
      [ discriminate Ht | ].
    injection Ht as <-. apply round2_arredondado.
Qed.

Lemma somar_macros_correto_witness :
  forallb macros_convertiveis [receita_fina; receita_proteica] = true
  /\ exists saida,
       somar_macros [receita_fina; receita_proteica] = Ret saida
       /\ exists total,
            calorias_somadas saida = NFloat total
            /\ arredondado_2_casas (0 + 100.125 + 0)%float total.
Proof.
  split; [ vm_compute; reflexivity | ].
  destruct (somar_macros_correto [receita_fina; receita_proteica])
    as [(saida & Hs & Hcal & _) _]; [ vm_compute; reflexivity | ].
  exists saida. split; [ exact Hs | exact Hcal ].
Defined.

(** X14. The ingredient names [somar_ingredientes] returns depend only on
    which records are aggregated, not on their order or their repetition:
    two lists with the same records give the same names in the same order. *)
Theorem nomes_independem_da_ordem (l1 l2 : list receita) :
  (forall r, r ∈ l1 <-> r ∈ l2) ->
  forallb (fun ing => convertivel (Quantidade ing)) (ocorrencias l1) = true ->
  exists s1 s2,
    somar_ingredientes l1 = Ret s1
    /\ somar_ingredientes l2 = Ret s2
    /\ map nome_somado s1 = map nome_somado s2.
Proof.
  intros Hmesmos Hc1.
  assert (Hocc : forall ing, ing ∈ ocorrencias l1 <-> ing ∈ ocorrencias l2).
  { intros ing. unfold ocorrencias. rewrite !list_elem_of_In, !in_flat_map.
    split; intros (r & Hr & Hi); exists r; split; auto;
      apply list_elem_of_In, Hmesmos, list_elem_of_In, Hr. }
  assert (Hc2 : forallb (fun ing => convertivel (Quantidade ing)) (ocorrencias l2) = true).
  { rewrite forallb_forall in *. intros ing Hi.
    apply Hc1, list_elem_of_In, Hocc, list_elem_of_In, Hi. }
  eexists _, _. split; [ now apply somar_ingredientes_ok | ].
  split; [ now apply somar_ingredientes_ok | ].
  rewrite !nomes_entradas. apply chaves_unicas. intros nome.
  rewrite !lookup_fold_passo, !lookup_empty, !total_de_presente.
  split; intros (ing & Hi & Hn); exists ing; split; auto; now apply Hocc.
Qed.

Lemma nomes_independem_da_ordem_witness :
  (forall r, r ∈ [receita_pudim; receita_bolo] <-> r ∈ [receita_bolo; receita_pudim; receita_bolo])
  /\ exists s1 s2,
       somar_ingredientes [receita_pudim; receita_bolo] = Ret s1
       /\ somar_ingredientes [receita_bolo; receita_pudim; receita_bolo] = Ret s2
       /\ map nome_somado s1 = map nome_somado s2.
Proof.
  assert (H : forall r, r ∈ [receita_pudim; receita_bolo]
                        <-> r ∈ [receita_bolo; receita_pudim; receita_bolo]).
  { intros r. rewrite !elem_of_cons, elem_of_nil. tauto. }
  split; [ exact H | ].
  apply (nomes_independem_da_ordem _ _ H). vm_compute. reflexivity.
Defined.

(** ** A quantity that does not convert *)

Lemma py_float_estouro (n : numero) :
  convertivel n = false -> py_float n = Raise OverflowError.
Proof.
  unfold convertivel. destruct n as [z | f]; simpl; [ | discriminate ].
  destruct (float_of_Z z); simpl; intros H; first [ reflexivity | discriminate H ].
Qed.

Lemma somar_lista_ingredientes_estouro (ings : list ingrediente) :
  forall acc,
    forallb (fun ing => convertivel (Quantidade ing)) ings = false ->
    somar_lista_ingredientes ings acc = Raise OverflowError.
Proof.
  induction ings as [ | ing ings IH]; intros acc Hc; [ discriminate Hc | ].
  simpl in Hc. simpl. destruct (convertivel (Quantidade ing)) eqn:Hq.
  - rewrite (py_float_convertivel _ Hq). simpl. now apply IH.
  - now rewrite (py_float_estouro _ Hq).
Qed.

Lemma acumular_ingredientes_estouro (lista : list receita) :
  forall acc,
    forallb (fun ing => convertivel (Quantidade ing)) (ocorrencias lista) = false ->
    acumular_ingredientes lista acc = Raise OverflowError.
Proof.
  induction lista as [ | r lista IH]; intros acc Hc; [ discriminate Hc | ].
  unfold ocorrencias in Hc. simpl in Hc. rewrite forallb_app in Hc. simpl.
  destruct (forallb (fun ing => convertivel (Quantidade ing)) (get (Ingredientes r) []))
    eqn:Hr.
  - rewrite (somar_lista_ingredientes_ok _ _ Hr). simpl. now apply IH.
  - now rewrite (somar_lista_ingredientes_estouro _ _ Hr).
Qed.

(** X17. [somar_ingredientes] returns a result exactly when every quantity
    of the records converts to [float]; when one does not (an [int] beyond the
    [float] range) it raises [OverflowError] and returns no partial sum. *)
Theorem somar_ingredientes_estouro (lista_receitas : list receita) :
  if forallb (fun ing => convertivel (Quantidade ing)) (ocorrencias lista_receitas)
  then exists saida, somar_ingredientes lista_receitas = Ret saida
  else somar_ingredientes lista_receitas = Raise OverflowError
       /\ exists ing, ing ∈ ocorrencias lista_receitas
                      /\ py_float (Quantidade ing) = Raise OverflowError.
Proof.
  destruct (forallb _ (ocorrencias lista_receitas)) eqn:Hc.
  - eexists. now apply somar_ingredientes_ok.
  - split.
    + unfold somar_ingredientes. now rewrite (acumular_ingredientes_estouro _ _ Hc).
    + clear -Hc. induction (ocorrencias lista_receitas) as [ | ing l IH]; [ discriminate Hc | ].
      simpl in Hc. destruct (convertivel (Quantidade ing)) eqn:Hq.
      * destruct (IH Hc) as (x & Hx & Hf). exists x. split; [ now right | exact Hf ].
      * exists ing. split; [ left | now apply py_float_estouro ].
Qed.

(** * Statistics *)

Lemma fold_extremo_elem {A} (melhor : A -> A -> bool) (l : list A) :
  forall x,
    fold_left (fun atual item => if melhor item atual then item else atual) l x ∈ x :: l.
Proof.
  induction l as [ | y l IH]; intros x; simpl; [ left | ].
  destruct (melhor y x).
  - right. apply IH.
  - specialize (IH x). apply elem_of_cons in IH as [-> | IH]; [ left | right; now right ].
Qed.

Lemma py_extremo_elem {A} (melhor : A -> A -> bool) (l : list A) :
  match py_extremo melhor l with
  | Some r => r ∈ l
  | None => l = []
  end.
Proof. destruct l as [ | x l]; simpl; [ reflexivity | apply fold_extremo_elem ]. Qed.

Lemma sum_list_comprimentos {A B} (f : A -> list B) (l : list A) :
  sum_list (map (fun x => length (f x)) l) = length (flat_map f l).
Proof.
  induction l as [ | x l IH]; simpl; [ reflexivity | ].
  now rewrite length_app, IH.
Qed.

(** X15. [GET /stats] counts what the other views show: the records of the
    catalog, the ingredient occurrences of all its records, and the tags of
    [obter_tags_unicas], never more tags than records and at least one when
    there is a record.  Whatever the calorie values, both extremes are records
    of the catalog, and they are absent only for the empty catalog. *)
Theorem estatisticas_totais (RECEITAS : list receita) :
  exists corpo,
    estatisticas RECEITAS = (Json corpo, 200)
    /\ Stats.total_receitas corpo = length RECEITAS
    /\ Stats.total_ingredientes_registros corpo = length (ocorrencias RECEITAS)
    /\ Stats.tags_disponiveis corpo = obter_tags_unicas RECEITAS
    /\ Stats.total_tags corpo = length (obter_tags_unicas RECEITAS)
    /\ (Stats.total_tags corpo <= length RECEITAS)%nat
    /\ (RECEITAS <> [] -> (1 <= Stats.total_tags corpo)%nat)
    /\ match Stats.receita_mais_calorica corpo with
       | Some r => r ∈ RECEITAS
       | None => RECEITAS = []
       end
    /\ match Stats.receita_menos_calorica corpo with
       | Some r => r ∈ RECEITAS
       | None => RECEITAS = []
       end.
Proof.
  eexists. split; [ reflexivity | ]. simpl.
  pose proof (tags_unicas_NoDup RECEITAS) as Hnd.
  pose proof (tags_unicas_elem RECEITAS) as Htags.
  split; [ reflexivity | ]. split; [ apply sum_list_comprimentos | ].
  split; [ reflexivity | ]. split; [ reflexivity | ]. split; [ | split; [ | split ] ].
  - rewrite <- (length_map tag_efetiva RECEITAS).
    apply NoDup_incl_length; [ now apply NoDup_ListNoDup | ].
    intros t Ht. apply list_elem_of_In, Htags in Ht as (r & Hr & <-).
    apply in_map_iff. exists r. split; [ reflexivity | now apply list_elem_of_In ].
  - intros Hne. destruct RECEITAS as [ | r l]; [ congruence | ].
    assert (Hin : tag_efetiva r ∈ obter_tags_unicas (r :: l)).
    { apply Htags. exists r. split; [ left | reflexivity ]. }
    destruct (obter_tags_unicas (r :: l)); [ inversion Hin | simpl; lia ].
  - apply py_extremo_elem.
  - apply py_extremo_elem.
Qed.
